(** * Jobly: statement construction for partial updates and search filters

    A shallow embedding of [helpers/sql.js] ([sqlForPartialUpdate]) and of the
    statement-building parts of [models/company.js] and [models/job.js]
    ([Company.update], [Company.filter], [Job.update], [Job.filter]), with
    the properties of the specification stated over it.

    - A JavaScript object is the list of its own enumerable properties in
      the order [Object.keys] lists them; [Object.keys] and [Object.values]
      read that one list, so their positions agree.
    - A property value is a primitive, or an array or plain object known by
      the string its [toString] gives (all the code can observe of it).
      Numbers are kept abstract: the code only tests them for truthiness,
      compares them with [>] after unary [+], and prints them in template
      literals; these operations are the fields of [JsRuntime].
    - An [async] method is embedded up to its [db.query] call: its outcome is
      either the exception thrown before that call or the statement text and
      the bound parameters handed to [db.query].
    - [Company.filter] and [Job.filter] assign to a property of the object
      they receive; they return the final state of that object next to
      their outcome.
    - The whole methods of the two models, and the handler of [GET /jobs],
      run against a database given by its state and its [db.query]
      ([Database]); they map a state to the state they leave and to what
      their promise settles to. *)

From Stdlib Require Import ZArith Ascii String.
From stdpp Require Import base option list strings gmap pretty.


(** ** JavaScript values *)

(** What the code needs from the ECMAScript runtime and cannot compute on
    strings and booleans alone. *)
Class JsRuntime (num : Type) := {
  (** [ToBoolean] on a number: false at [+0], [-0] and [NaN]. *)
  num_truthy : num → bool;
  (** [x > y] on numbers: false when either side is [NaN]. *)
  num_gt : num → num → bool;
  (** [Number::toString], as a template literal prints a number. *)
  num_to_string : num → string;
  (** [StringToNumber], as unary [+] reads a string. *)
  string_to_num : string → num;
  (** The number denoted by an integer literal. *)
  num_of_Z : Z → num;
  num_NaN : num;
  (** The text a template literal prints for the member of that name
      inherited from [Object.prototype] (for a built-in function, its
      implementation defined source text). *)
  inherited_text : string → string
}.

Inductive JsVal (num : Type) : Type :=
  | JUndefined
  | JNull
  | JBool (b : bool)
  | JNum (n : num)
  | JStr (s : string)
  | JObject (text : string).

Arguments JUndefined {num}.
Arguments JNull {num}.
Arguments JBool {num} b.
Arguments JNum {num} n.
Arguments JStr {num} s.
Arguments JObject {num} text.

(** The two exception classes of [expressError.js] that the models throw,
    with the message they are constructed with. *)
Inductive ExpressError : Type :=
  | BadRequestError (message : string)
  | NotFoundError (message : string).

(** Outcome of a call: a returned value or a thrown exception. *)
Inductive Completion (A : Type) : Type :=
  | Return (a : A)
  | Throw (e : ExpressError).

Arguments Return {A} a.
Arguments Throw {A} e.

Definition completion_map {A B : Type} (f : A → B) (c : Completion A) : Completion B :=
  match c with
  | Return a => Return (f a)
  | Throw e => Throw e
  end.

Definition completion_bind {A B : Type} (c : Completion A) (k : A → Completion B) : Completion B :=
  match c with
  | Return a => k a
  | Throw e => Throw e
  end.

Definition is_string_empty (s : string) : bool :=
  match s with
  | EmptyString => true
  | String _ _ => false
  end.

(** The double quote character and the line break of the template literals. *)
Definition dquote : string := String "034"%char EmptyString.
Definition newline : string := String "010"%char EmptyString.

(** [Array.prototype.join]. *)
Definition join (sep : string) (l : list string) : string := String.concat sep l.

(** The names every object literal inherits from [Object.prototype]. *)
Definition Object_prototype_names : list string :=
  [ "constructor"; "hasOwnProperty"; "isPrototypeOf"; "propertyIsEnumerable";
    "toLocaleString"; "toString"; "valueOf"; "__proto__";
    "__defineGetter__"; "__defineSetter__"; "__lookupGetter__"; "__lookupSetter__" ].

Section Values.
Context {num : Type} `{!JsRuntime num}.

(** [ToBoolean]. *)
Definition truthy (v : JsVal num) : bool :=
  match v with
  | JUndefined => false
  | JNull => false
  | JBool b => b
  | JNum n => num_truthy n
  | JStr s => negb (is_string_empty s)
  | JObject _ => true
  end.

(** [ToString], as applied by a template literal. *)
Definition ToString (v : JsVal num) : string :=
  match v with
  | JUndefined => "undefined"
  | JNull => "null"
  | JBool true => "true"
  | JBool false => "false"
  | JNum n => num_to_string n
  | JStr s => s
  | JObject text => text
  end.

(** [ToNumber], as applied by unary [+]; an array or plain object is first
    turned into its [toString] text. *)
Definition ToNumber (v : JsVal num) : num :=
  match v with
  | JUndefined => num_NaN
  | JNull => num_of_Z 0
  | JBool true => num_of_Z 1
  | JBool false => num_of_Z 0
  | JNum n => n
  | JStr s => string_to_num s
  | JObject text => string_to_num text
  end.

(** ** Objects *)

(** An object received from a caller: own properties in key order. *)
Definition Obj : Type := list (string * JsVal num).

Definition Object_keys (o : Obj) : list string := o.*1.
Definition Object_values (o : Obj) : list (JsVal num) := o.*2.

(** [o[k]] and [o.k] on a caller's object, for a name that
    [Object.prototype] does not define: the own property, or [undefined]. *)
Fixpoint obj_get (o : Obj) (k : string) : JsVal num :=
  match o with
  | [] => JUndefined
  | (k', v) :: o' => if decide (k' = k) then v else obj_get o' k
  end.

(** [o.k = v]: an existing property keeps its place, a new one goes last. *)
Fixpoint obj_set (o : Obj) (k : string) (v : JsVal num) : Obj :=
  match o with
  | [] => [(k, v)]
  | (k', v') :: o' =>
      if decide (k' = k) then (k, v) :: o' else (k', v') :: obj_set o' k v
  end.

(** [table[k]] on an object literal whose own values are strings, read
    where the code uses it: [None] when the value is falsy ([undefined], or
    an empty own string), otherwise the text a template literal prints for
    it.  A name missing from the literal but defined by [Object.prototype]
    reads the inherited member, which is truthy. *)
Definition table_get (table : gmap string string) (k : string) : option string :=
  match table !! k with
  | Some s => if is_string_empty s then None else Some s
  | None =>
      if bool_decide (k ∈ Object_prototype_names)
      then Some (inherited_text k) else None
  end.

(** ** helpers/sql.js *)

Record PartialUpdate : Type := {
  setCols : string;
  values : list (JsVal num)
}.

(** [jsToSql[colName] || colName] *)
Definition column (jsToSql : gmap string string) (colName : string) : string :=
  default colName (table_get jsToSql colName).

(** The arrow function mapped over the keys:
    [(colName, idx) => `"${jsToSql[colName] || colName}"=$${idx + 1}`] *)
Definition col_fragment (jsToSql : gmap string string) (idx : nat) (colName : string) : string :=
  dquote +:+ column jsToSql colName +:+ dquote +:+ "=$" +:+ pretty (idx + 1).

Definition sqlForPartialUpdate (dataToUpdate : Obj) (jsToSql : gmap string string)
  : Completion PartialUpdate :=
  let keys := Object_keys dataToUpdate in
  if bool_decide (length keys = 0) then Throw (BadRequestError "No data")
  else
    let cols := imap (col_fragment jsToSql) keys in
    Return {| setCols := join ", " cols;
              values := Object_values dataToUpdate |}.

(** A call [sqlForPartialUpdate(dataToUpdate, jsToSql)] with the two objects
    it is passed as the call leaves them, next to its outcome.  The body
    reads them ([Object.keys], [jsToSql[colName]], [Object.values], each
    giving a new array or a value) and assigns to neither. *)
Definition sqlForPartialUpdate_call (dataToUpdate : Obj) (jsToSql : gmap string string)
  : (Obj * gmap string string) * Completion PartialUpdate :=
  ((dataToUpdate, jsToSql), sqlForPartialUpdate dataToUpdate jsToSql).

End Values.

Section Models.
Context {num : Type} `{!JsRuntime num}.

(** The two arguments of a [db.query] call. *)
Record DbQuery : Type := {
  queryText : string;
  queryParams : list (JsVal num)
}.

(** ** models/company.js *)

(** The column table [Company.update] passes to [sqlForPartialUpdate]. *)
Definition Company_jsToSql : gmap string string :=
  {[ "numEmployees" := "num_employees"; "logoUrl" := "logo_url" ]}.

Definition Company_update_querySql (setCols handleVarIdx : string) : string :=
  "UPDATE companies " +:+ newline +:+
  "                      SET " +:+ setCols +:+ " " +:+ newline +:+
  "                      WHERE handle = " +:+ handleVarIdx +:+ " " +:+ newline +:+
  "                      RETURNING handle, " +:+ newline +:+
  "                                name, " +:+ newline +:+
  "                                description, " +:+ newline +:+
  "                                num_employees AS " +:+ dquote +:+ "numEmployees" +:+ dquote +:+ ", " +:+ newline +:+
  "                                logo_url AS " +:+ dquote +:+ "logoUrl" +:+ dquote.

(** [Company.update(handle, data)] up to its [db.query] call. *)
Definition Company_update (handle : JsVal num) (data : Obj) : Completion DbQuery :=
  completion_bind (sqlForPartialUpdate data Company_jsToSql) (λ r,
    let handleVarIdx := "$" +:+ pretty (length (values r) + 1) in
    let querySql := Company_update_querySql (setCols r) handleVarIdx in
    Return {| queryText := querySql; queryParams := values r ++ [handle] |}).

(** One turn of the [forEach] over [Object.keys(query)]:
    [if (query[key] && sqlMap[key]) { params.push(query[key]);
    conditions.push(`${sqlMap[key]} $${params.length}`) }].
    The state is the pair of the arrays [params] and [conditions]. *)
Definition filter_step (sqlMap : gmap string string) (query : Obj)
    (st : list (JsVal num) * list string) (key : string)
  : list (JsVal num) * list string :=
  let '(params, conditions) := st in
  if truthy (obj_get query key) then
    match table_get sqlMap key with
    | Some text =>
        let params' := params ++ [obj_get query key] in
        (params', conditions ++ [text +:+ " $" +:+ pretty (length params')])
    | None => st
    end
  else st.

Definition filter_loop (sqlMap : gmap string string) (query : Obj)
  : list (JsVal num) * list string :=
  foldl (filter_step sqlMap query) ([], []) (Object_keys query).

Definition Company_sqlMap : gmap string string :=
  {[ "nameLike" := "name ILIKE";
     "minEmployees" := "num_employees >=";
     "maxEmployees" := "num_employees <=" ]}.

Definition Company_filter_queryStmt (sqlWhere : string) : string :=
  "SELECT" +:+ newline +:+
  "      handle," +:+ newline +:+
  "      name," +:+ newline +:+
  "      description," +:+ newline +:+
  "      num_employees AS " +:+ dquote +:+ "numEmployees" +:+ dquote +:+ "," +:+ newline +:+
  "      logo_url AS " +:+ dquote +:+ "logoUrl" +:+ dquote +:+ newline +:+
  "        FROM companies" +:+ newline +:+
  "          WHERE " +:+ sqlWhere +:+ newline +:+
  "            ORDER BY name".

(** [`%${v}%`] *)
Definition wildcard (v : JsVal num) : JsVal num :=
  JStr ("%" +:+ ToString v +:+ "%").

(** [Company.filter(query)] up to its [db.query] call.  The first component
    is the caller's [query] object as the call leaves it. *)
Definition Company_filter (query : Obj) : Obj * Completion DbQuery :=
  if negb (truthy (obj_get query "nameLike"))
     && negb (truthy (obj_get query "minEmployees"))
     && negb (truthy (obj_get query "maxEmployees"))
  then (query, Throw (BadRequestError "Invalid search criteria"))
  else if truthy (obj_get query "minEmployees")
          && truthy (obj_get query "maxEmployees")
          && num_gt (ToNumber (obj_get query "minEmployees"))
                    (ToNumber (obj_get query "maxEmployees"))
  then (query, Throw (BadRequestError
          "Invalid request, minEmployees can not exceed maxEmployees"))
  else
    let query :=
      if truthy (obj_get query "nameLike")
      then obj_set query "nameLike" (wildcard (obj_get query "nameLike"))
      else query in
    let '(params, conditions) := filter_loop Company_sqlMap query in
    let sqlWhere := join " AND " conditions in
    (query, Return {| queryText := Company_filter_queryStmt sqlWhere;
                      queryParams := params |}).

(** ** models/job.js *)

Definition Job_jsToSql : gmap string string :=
  {[ "companyHandle" := "company_handle" ]}.

Definition Job_update_querySql (setCols valuesLength : string) : string :=
  "UPDATE jobs" +:+ newline +:+
  "                            SET " +:+ setCols +:+ newline +:+
  "                            WHERE id = $" +:+ valuesLength +:+ newline +:+
  "                            RETURNING id," +:+ newline +:+
  "                                      title," +:+ newline +:+
  "                                      company_handle AS " +:+ dquote +:+ "companyHandle" +:+ dquote +:+ "," +:+ newline +:+
  "                                      salary," +:+ newline +:+
  "                                      equity".

Definition Job_immutable_error : ExpressError :=
  BadRequestError "Job id and companyHandle can not be changed".

(** [Job.update(id, data)] up to its [db.query] call. *)
Definition Job_update (id : JsVal num) (data : Obj) : Completion DbQuery :=
  if truthy (obj_get data "id") || truthy (obj_get data "companyHandle")
  then Throw Job_immutable_error
  else
    completion_bind (sqlForPartialUpdate data Job_jsToSql) (λ r,
      let values := values r ++ [id] in
      let querySql := Job_update_querySql (setCols r) (pretty (length values)) in
      Return {| queryText := querySql; queryParams := values |}).

(** [`equity ${'= 0' ? !query.hasEquity : '> 0'}`]: the condition of the
    conditional operator is the string literal ['= 0']. *)
Definition Job_hasEquity_text (query : Obj) : string :=
  "equity " +:+
  ToString (if truthy (JStr "= 0")
            then JBool (negb (truthy (obj_get query "hasEquity")))
            else JStr "> 0").

Definition Job_sqlMap (query : Obj) : gmap string string :=
  {[ "title" := "title ILIKE";
     "minSalary" := "salary >=";
     "hasEquity" := Job_hasEquity_text query ]}.

Definition Job_filter_queryStmt (sqlWhere : string) : string :=
  newline +:+
  "                SELECT id," +:+ newline +:+
  "                       title," +:+ newline +:+
  "                       company_handle AS companyHandle," +:+ newline +:+
  "                       salary," +:+ newline +:+
  "                       equity," +:+ newline +:+
  "                    FROM jobs" +:+ newline +:+
  "                    WHERE " +:+ sqlWhere +:+ newline +:+
  "                    ORDER BY title, companyHandle".

(** [Job.filter(query)] up to its [db.query] call.  The first component is
    the caller's [query] object as the call leaves it. *)
Definition Job_filter (query : Obj) : Obj * Completion DbQuery :=
  if negb (truthy (obj_get query "title"))
     && negb (truthy (obj_get query "minSalary"))
     && negb (truthy (obj_get query "hasEquity"))
  then (query, Throw (BadRequestError "Invalid search criteria"))
  else
    let query :=
      if truthy (obj_get query "title")
      then obj_set query "title" (wildcard (obj_get query "title"))
      else query in
    let '(params, conditions) := filter_loop (Job_sqlMap query) query in
    let sqlWhere := join " AND " conditions in
    (query, Return {| queryText := Job_filter_queryStmt sqlWhere;
                      queryParams := params |}).

End Models.

(** ** A runtime to evaluate the code on integer-valued numbers *)

(** Integer-valued numbers and [NaN]. *)
Inductive Zdouble : Type :=
  | NaN
  | Int (z : Z).

Definition digit_of_ascii (c : ascii) : option Z :=
  let n := Z.of_N (N_of_ascii c) in
  if bool_decide (48 ≤ n ≤ 57)%Z then Some (n - 48)%Z else None.

Fixpoint digits_to_Z (acc : Z) (s : string) : option Z :=
  match s with
  | EmptyString => Some acc
  | String c s' =>
      match digit_of_ascii c with
      | Some d => digits_to_Z (10 * acc + d)%Z s'
      | None => None
      end
  end.

(** [StringToNumber] on the empty string and on plain decimal digit strings;
    other strings are outside this runtime and read as [NaN]. *)
Definition Zdouble_of_string (s : string) : Zdouble :=
  match digits_to_Z 0 s with
  | Some z => Int z
  | None => NaN
  end.

#[global] Instance Zdouble_runtime : JsRuntime Zdouble := {
  num_truthy n := match n with NaN => false | Int z => negb (z =? 0)%Z end;
  num_gt x y := match x, y with Int a, Int b => (b <? a)%Z | _, _ => false end;
  num_to_string n := match n with NaN => "NaN" | Int z => pretty z end;
  string_to_num := Zdouble_of_string;
  num_of_Z := Int;
  num_NaN := NaN;
  inherited_text k :=
    if bool_decide (k = "__proto__") then "[object Object]"
    else "function " +:+ (if bool_decide (k = "constructor") then "Object" else k)
         +:+ "() { [native code] }"
}.

Definition jnum (z : Z) : JsVal Zdouble := JNum (Int z).

(** ** The database client and the asynchronous methods *)

(** What the promise of [db.query(text, params)] settles to: the [rows] array
    of the result, or the rejection of the driver. *)
Inductive DbResult (num err : Type) : Type :=
  | Rows (rows : list (@Obj num))
  | DbRejected (e : err).

Arguments Rows {num err} rows.
Arguments DbRejected {num err} e.

(** The connection [db] of [db.js]: a state, and what a query does to it. *)
Class Database (num : Type) := {
  DB : Type;
  DbError : Type;
  db_query : DB → @DbQuery num → DB * DbResult num DbError
}.

(** What the promise of an [async] method settles to: its value, an
    exception of [expressError.js] thrown by the method, or the rejection of
    a [db.query] it awaited. *)
Inductive Settled (err A : Type) : Type :=
  | Fulfilled (a : A)
  | Rejected (e : ExpressError)
  | RejectedByDb (e : err).

Arguments Fulfilled {err A} a.
Arguments Rejected {err A} e.
Arguments RejectedByDb {err A} e.

(** [ToBoolean] of an array: an array is an object, truthy also when empty. *)
Definition array_truthy {A : Type} (rows : list A) : bool := true.

(** [ToBoolean] of [rows[0]]: a row object is truthy, [undefined] is not. *)
Definition row_truthy {A : Type} (row : option A) : bool :=
  match row with
  | Some _ => true
  | None => false
  end.

Section Async.
Context {num : Type} `{!JsRuntime num} `{!Database num}.

(** An [async] method: from the state of the database to the state it
    leaves and what its promise settles to. *)
Definition Async (A : Type) : Type := DB → DB * Settled DbError A.

Definition resolve {A : Type} (a : A) : Async A := λ db, (db, Fulfilled a).

Definition throw {A : Type} (e : ExpressError) : Async A := λ db, (db, Rejected e).

(** [await m], then the rest of the method; a rejection ends the method. *)
Definition async_bind {A B : Type} (m : Async A) (k : A → Async B) : Async B :=
  λ db,
    match m db with
    | (db', Fulfilled a) => k a db'
    | (db', Rejected e) => (db', Rejected e)
    | (db', RejectedByDb e) => (db', RejectedByDb e)
    end.

(** [(await db.query(text, params)).rows] *)
Definition run_query (q : DbQuery) : Async (list Obj) :=
  λ db,
    match db_query db q with
    | (db', Rows rows) => (db', Fulfilled rows)
    | (db', DbRejected e) => (db', RejectedByDb e)
    end.

(** The synchronous part of a method, inside its promise. *)
Definition completed {A : Type} (c : Completion A) : Async A :=
  match c with
  | Return a => resolve a
  | Throw e => throw e
  end.

End Async.

Notation "'await!' x ← m ; k" := (async_bind m (λ x, k))
  (at level 10, x name, m at level 100, k at level 200, only parsing).

Section AsyncModels.
Context {num : Type} `{!JsRuntime num} `{!Database num}.

(** *** models/company.js *)

Definition Company_create_duplicateCheck_sql : string :=
  "SELECT handle" +:+ newline +:+
  "           FROM companies" +:+ newline +:+
  "           WHERE handle = $1".

Definition Company_create_insert_sql : string :=
  "INSERT INTO companies" +:+ newline +:+
  "           (handle, name, description, num_employees, logo_url)" +:+ newline +:+
  "           VALUES ($1, $2, $3, $4, $5)" +:+ newline +:+
  "           RETURNING handle, name, description, num_employees AS " +:+ dquote +:+ "numEmployees" +:+ dquote +:+ ", logo_url AS " +:+ dquote +:+ "logoUrl" +:+ dquote.

Definition Company_findAll_sql : string :=
  "SELECT handle," +:+ newline +:+
  "                  name," +:+ newline +:+
  "                  description," +:+ newline +:+
  "                  num_employees AS " +:+ dquote +:+ "numEmployees" +:+ dquote +:+ "," +:+ newline +:+
  "                  logo_url AS " +:+ dquote +:+ "logoUrl" +:+ dquote +:+ newline +:+
  "           FROM companies" +:+ newline +:+
  "           ORDER BY name".

Definition Company_get_sql : string :=
  "SELECT " +:+ newline +:+
  "          c.handle, " +:+ newline +:+
  "          c.name, " +:+ newline +:+
  "          c.description, " +:+ newline +:+
  "          c.num_employees AS " +:+ dquote +:+ "numEmployees" +:+ dquote +:+ ", " +:+ newline +:+
  "          c.logo_url AS " +:+ dquote +:+ "logoUrl" +:+ dquote +:+ "," +:+ newline +:+
  "          JSON_AGG(" +:+ newline +:+
  "              JSON_BUILD_OBJECT(" +:+ newline +:+
  "                  'id', j.id, " +:+ newline +:+
  "                  'title', j.title, " +:+ newline +:+
  "                  'salary', j.salary, " +:+ newline +:+
  "                  'equity', j.equity" +:+ newline +:+
  "              )" +:+ newline +:+
  "          ) FILTER (WHERE j.id IS NOT NULL) AS jobs" +:+ newline +:+
  "      FROM companies c" +:+ newline +:+
  "      LEFT JOIN jobs j ON c.handle = j.company_handle" +:+ newline +:+
  "      WHERE c.handle = $1" +:+ newline +:+
  "      GROUP BY c.handle, c.name, c.description, c.num_employees, c.logo_url;".

Definition Company_remove_sql : string :=
  "DELETE" +:+ newline +:+
  "           FROM companies" +:+ newline +:+
  "           WHERE handle = $1" +:+ newline +:+
  "           RETURNING handle".

(** [Company.create({ handle, name, description, numEmployees, logoUrl })];
    the value is [result.rows[0]]. *)
Definition Company_create (data : Obj) : Async (option Obj) :=
  let handle := obj_get data "handle" in
  let name := obj_get data "name" in
  let description := obj_get data "description" in
  let numEmployees := obj_get data "numEmployees" in
  let logoUrl := obj_get data "logoUrl" in
  await! duplicateCheck ←
    run_query {| queryText := Company_create_duplicateCheck_sql;
                 queryParams := [handle] |};
  if row_truthy (head duplicateCheck)
  then throw (BadRequestError ("Duplicate company: " +:+ ToString handle))
  else
    await! result ←
      run_query {| queryText := Company_create_insert_sql;
                   queryParams := [handle; name; description; numEmployees; logoUrl] |};
    resolve (head result).

(** [Company.findAll()]; [db.query] gets the text alone. *)
Definition Company_findAll : Async (list Obj) :=
  await! companiesRes ←
    run_query {| queryText := Company_findAll_sql; queryParams := [] |};
  resolve companiesRes.

(** [Company.get(handle)] *)
Definition Company_get (handle : JsVal num) : Async Obj :=
  await! companyRes ←
    run_query {| queryText := Company_get_sql; queryParams := [handle] |};
  match head companyRes with
  | None => throw (NotFoundError ("No company: " +:+ ToString handle))
  | Some company => resolve company
  end.

(** [Company.update(handle, data)], with its [db.query] call and what
    follows it. *)
Definition Company_update_run (handle : JsVal num) (data : Obj) : Async Obj :=
  await! stmt ← completed (Company_update handle data);
  await! result ← run_query stmt;
  match head result with
  | None => throw (NotFoundError ("No company: " +:+ ToString handle))
  | Some company => resolve company
  end.

(** [Company.remove(handle)]; the value is [undefined]. *)
Definition Company_remove (handle : JsVal num) : Async unit :=
  await! result ←
    run_query {| queryText := Company_remove_sql; queryParams := [handle] |};
  match head result with
  | None => throw (NotFoundError ("No company: " +:+ ToString handle))
  | Some company => resolve ()
  end.

(** [Company.filter(query)], with its [db.query] call and what follows it;
    the first component is the caller's [query] object as the call leaves
    it. *)
Definition Company_filter_run (query : Obj) : Obj * Async (list Obj) :=
  ((Company_filter query).1,
   await! stmt ← completed (Company_filter query).2;
   await! companies ← run_query stmt;
   if negb (array_truthy companies)
   then throw (NotFoundError
                 "No companies were found matching that filter criteria.")
   else resolve companies).

(** *** models/job.js *)

Definition Job_create_duplicateCheck_sql : string :=
  "SELECT company_handle, title, salary" +:+ newline +:+
  "            FROM jobs" +:+ newline +:+
  "            WHERE company_handle = $1" +:+ newline +:+
  "            AND title = $2" +:+ newline +:+
  "            AND salary = $3".

Definition Job_create_insert_sql : string :=
  "INSERT INTO jobs" +:+ newline +:+
  "                (title, salary, equity, company_handle)" +:+ newline +:+
  "                VALUES ($1,$2,$3,$4)" +:+ newline +:+
  "                RETURNING id, title, company_handle AS " +:+ dquote +:+ "companyHandle" +:+ dquote +:+ ", salary, equity".

Definition Job_findAll_sql : string :=
  "SELECT id," +:+ newline +:+
  "                    title," +:+ newline +:+
  "                    company_handle AS " +:+ dquote +:+ "companyHandle" +:+ dquote +:+ "," +:+ newline +:+
  "                    salary," +:+ newline +:+
  "                    equity " +:+ newline +:+
  "                FROM jobs" +:+ newline +:+
  "                ORDER BY title, company_handle".

Definition Job_get_sql : string :=
  "SELECT id," +:+ newline +:+
  "                    title," +:+ newline +:+
  "                    company_handle AS " +:+ dquote +:+ "companyHandle" +:+ dquote +:+ "," +:+ newline +:+
  "                    salary," +:+ newline +:+
  "                    equity " +:+ newline +:+
  "                FROM jobs" +:+ newline +:+
  "                WHERE company_handle = $1" +:+ newline +:+
  "                ORDER BY title".

Definition Job_getId_sql : string :=
  "SELECT id," +:+ newline +:+
  "                    title," +:+ newline +:+
  "                    company_handle AS " +:+ dquote +:+ "companyHandle" +:+ dquote +:+ "," +:+ newline +:+
  "                    salary," +:+ newline +:+
  "                    equity " +:+ newline +:+
  "                FROM jobs" +:+ newline +:+
  "                WHERE id = $1" +:+ newline +:+
  "                ORDER BY title".

Definition Job_remove_sql : string :=
  "DELETE" +:+ newline +:+
  "                FROM jobs" +:+ newline +:+
  "                WHERE id = $1" +:+ newline +:+
  "                RETURNING id".

(** [Job.create({ title, salary, equity, companyHandle })]; the value is
    [result.rows[0]]. *)
Definition Job_create (data : Obj) : Async (option Obj) :=
  let title := obj_get data "title" in
  let salary := obj_get data "salary" in
  let equity := obj_get data "equity" in
  let companyHandle := obj_get data "companyHandle" in
  await! duplicateCheck ←
    run_query {| queryText := Job_create_duplicateCheck_sql;
                 queryParams := [companyHandle; title; salary] |};
  if row_truthy (head duplicateCheck)
  then throw (BadRequestError ("Duplicate job: " +:+ ToString title
                               +:+ " at " +:+ ToString companyHandle))
  else
    await! result ←
      run_query {| queryText := Job_create_insert_sql;
                   queryParams := [title; salary; equity; companyHandle] |};
    resolve (head result).

(** [Job.findAll()]; [db.query] gets the text alone. *)
Definition Job_findAll : Async (list Obj) :=
  await! jobsRes ←
    run_query {| queryText := Job_findAll_sql; queryParams := [] |};
  resolve jobsRes.

(** [Job.get(handle)] *)
Definition Job_get (handle : JsVal num) : Async (list Obj) :=
  await! handleCheck ← Company_get handle;
  await! jobs ←
    run_query {| queryText := Job_get_sql; queryParams := [handle] |};
  if negb (array_truthy jobs)
  then throw (NotFoundError ("No Jobs listed at " +:+ ToString handle))
  else resolve jobs.

(** [Job.getId(id)] *)
Definition Job_getId (id : JsVal num) : Async (list Obj) :=
  await! job ←
    run_query {| queryText := Job_getId_sql; queryParams := [id] |};
  if negb (array_truthy job)
  then throw (NotFoundError ("No Jobs listed with id " +:+ ToString id))
  else resolve job.

(** [Job.update(id, data)], with its [db.query] call and what follows it. *)
Definition Job_update_run (id : JsVal num) (data : Obj) : Async Obj :=
  await! stmt ← completed (Job_update id data);
  await! result ← run_query stmt;
  match head result with
  | None => throw (NotFoundError ("No job with id:" +:+ ToString id))
  | Some job => resolve job
  end.

(** [Job.filter(query)], with its [db.query] call and what follows it; the
    first component is the caller's [query] object as the call leaves it. *)
Definition Job_filter_run (query : Obj) : Obj * Async (list Obj) :=
  ((Job_filter query).1,
   await! stmt ← completed (Job_filter query).2;
   await! jobs ← run_query stmt;
   if negb (array_truthy jobs)
   then throw (NotFoundError
                 "No jobs were found matching that filter criteria.")
   else resolve jobs).

(** [Job.remove(id)]; the value is [undefined]. *)
Definition Job_remove (id : JsVal num) : Async unit :=
  await! result ←
    run_query {| queryText := Job_remove_sql; queryParams := [id] |};
  match head result with
  | None => throw (NotFoundError ("No job found with id " +:+ ToString id))
  | Some job => resolve ()
  end.

(** *** routes/jobs.js *)

(** The handler of [GET /] on the query object [req.query]: a fulfilled
    promise stands for [res.json({ jobs })], a rejected one for [next(err)].
    The first component is [req.query] as the handler leaves it. *)
Definition jobs_router_get (req_query : Obj) : Obj * Async (list Obj) :=
  if bool_decide (length (Object_keys req_query) = 0)
  then (req_query, Job_findAll)
  else Job_filter_run req_query.

End AsyncModels.

(** ** A scripted database to run the methods on *)

(** The results the next queries get, and the queries issued so far. *)
Record Scripted : Type := {
  pending : list (list (@Obj Zdouble));
  issued : list (@DbQuery Zdouble)
}.

(** Each query is logged and takes the next pending result; when none is
    left the driver rejects. *)
#[global] Instance Scripted_database : Database Zdouble := {
  DB := Scripted;
  DbError := string;
  db_query db q :=
    match pending db with
    | rows :: rest =>
        ({| pending := rest; issued := issued db ++ [q] |}, Rows rows)
    | [] =>
        ({| pending := []; issued := issued db ++ [q] |},
         DbRejected "connection terminated")
    end
}.

(** ** Properties of objects and of the loop of the filters *)

Section Properties.
Context {num : Type} `{!JsRuntime num}.
Implicit Types (o query data : @Obj num) (k key : string) (v : JsVal num).

Lemma length_Object_keys o : length (Object_keys o) = length o.
Proof. unfold Object_keys. by rewrite length_fmap. Qed.

Lemma length_Object_values o : length (Object_values o) = length o.
Proof. unfold Object_values. by rewrite length_fmap. Qed.

Lemma obj_get_absent o k : k ∉ Object_keys o → obj_get o k = JUndefined.
Proof.
  induction o as [|[k' v'] o IH]; simpl; [done|].
  intros Hk. apply not_elem_of_cons in Hk as [Hne Hk].
  destruct (decide (k' = k)); [congruence | auto].
Qed.

Lemma obj_get_present o k : truthy (obj_get o k) = true → k ∈ Object_keys o.
Proof.
  intros Ht. destruct (decide (k ∈ Object_keys o)) as [|Hk]; [done|].
  rewrite (obj_get_absent _ _ Hk) in Ht. discriminate.
Qed.

Lemma obj_get_set_eq o k v : obj_get (obj_set o k v) k = v.
Proof.
  induction o as [|[k' v'] o IH]; simpl.
  - by rewrite decide_True.
  - destruct (decide (k' = k)); simpl.
    + by rewrite decide_True.
    + by rewrite decide_False.
Qed.

Lemma obj_get_set_ne o k k' v : k ≠ k' → obj_get (obj_set o k v) k' = obj_get o k'.
Proof.
  intros Hne. induction o as [|[k0 v0] o IH]; simpl.
  - by rewrite decide_False.
  - destruct (decide (k0 = k)) as [->|]; simpl.
    + by rewrite !decide_False.
    + by rewrite IH.
Qed.

Lemma Object_keys_set o k v :
  k ∈ Object_keys o → Object_keys (obj_set o k v) = Object_keys o.
Proof.
  induction o as [|[k0 v0] o IH]; simpl.
  - by intros ?%elem_of_nil.
  - intros Hk. destruct (decide (k0 = k)) as [->|Hne]; simpl; [done|].
    apply elem_of_cons in Hk as [->|Hk]; [done|].
    unfold Object_keys in *. by rewrite IH.
Qed.

(** What the text of a filter depends on: the keys, and which of their
    values are truthy. *)
Definition shape o : list (string * bool) := (λ kv, (kv.1, truthy kv.2)) <$> o.

Lemma shape_keys o1 o2 : shape o1 = shape o2 → Object_keys o1 = Object_keys o2.
Proof.
  unfold shape, Object_keys. intros Hs.
  apply (f_equal (fmap fst)) in Hs. rewrite <- !list_fmap_compose in Hs.
  exact Hs.
Qed.

Lemma shape_truthy o1 o2 k :
  shape o1 = shape o2 → truthy (obj_get o1 k) = truthy (obj_get o2 k).
Proof.
  revert o2. induction o1 as [|[k1 v1] o1 IH]; intros [|[k2 v2] o2] Hs;
    simpl in *; try done.
  injection Hs as -> Hv Hs.
  destruct (decide (k2 = k)); [done | by apply IH].
Qed.

Lemma shape_set o k v :
  truthy (obj_get o k) = true → truthy v = true → shape (obj_set o k v) = shape o.
Proof.
  intros Hget Hv. induction o as [|[k0 v0] o IH]; simpl in *; [done|].
  destruct (decide (k0 = k)) as [->|]; simpl.
  - by rewrite Hv, Hget.
  - by rewrite IH.
Qed.

Lemma wildcard_truthy v : truthy (wildcard v) = true.
Proof. done. Qed.

Lemma string_length_app (s1 s2 : string) :
  String.length (s1 +:+ s2) = String.length s1 + String.length s2.
Proof.
  induction s1 as [|a s1 IH]; [done|].
  change (String a s1 +:+ s2) with (String a (s1 +:+ s2)).
  simpl. by rewrite IH.
Qed.

Lemma wildcard_neq v : wildcard v ≠ v.
Proof.
  destruct v as [| | |n|s|text]; try done. unfold wildcard. intros [= Heq].
  apply (f_equal String.length) in Heq.
  rewrite !string_length_app in Heq. simpl in Heq. lia.
Qed.

(** *** The [forEach] of the filters *)

Lemma filter_step_extends sqlMap query st key :
  ∃ ps cs, filter_step sqlMap query st key = (st.1 ++ ps, st.2 ++ cs)
           ∧ length ps = length cs.
Proof.
  destruct st as [params conditions]. unfold filter_step.
  destruct (truthy (obj_get query key)); [destruct (table_get sqlMap key)|].
  - by eexists [_], [_].
  - exists [], []. by rewrite !app_nil_r.
  - exists [], []. by rewrite !app_nil_r.
Qed.

Lemma filter_fold_extends sqlMap query ks st :
  ∃ ps cs, foldl (filter_step sqlMap query) st ks = (st.1 ++ ps, st.2 ++ cs)
           ∧ length ps = length cs.
Proof.
  revert st. induction ks as [|key ks IH]; intros st; simpl.
  - exists [], []. rewrite !app_nil_r. by destruct st.
  - destruct (filter_step_extends sqlMap query st key) as (ps & cs & -> & Hlen).
    destruct (IH (st.1 ++ ps, st.2 ++ cs)) as (ps' & cs' & -> & Hlen').
    exists (ps ++ ps'), (cs ++ cs'). simpl.
    rewrite !(assoc_L (++)), !length_app. auto.
Qed.

(** [params] and [conditions] grow together. *)
Lemma filter_loop_lengths sqlMap query :
  length (filter_loop sqlMap query).1 = length (filter_loop sqlMap query).2.
Proof.
  unfold filter_loop.
  by destruct (filter_fold_extends sqlMap query (Object_keys query) ([], []))
    as (ps & cs & -> & Hlen).
Qed.

(** A key of the query with a truthy value and a truthy table entry gets a
    condition and, at the position that condition names, its value. *)
Lemma filter_loop_binds sqlMap query key text :
  key ∈ Object_keys query →
  truthy (obj_get query key) = true →
  table_get sqlMap key = Some text →
  ∃ i, (filter_loop sqlMap query).1 !! i = Some (obj_get query key)
       ∧ (filter_loop sqlMap query).2 !! i = Some (text +:+ " $" +:+ pretty (i + 1)).
Proof.
  intros (l1 & l2 & Hsplit)%list_elem_of_split Htruthy Htable.
  assert (∃ p1 c1 p2 c2, length p1 = length c1 ∧
            filter_loop sqlMap query =
              (p1 ++ obj_get query key :: p2,
               c1 ++ (text +:+ " $" +:+ pretty (length p1 + 1)) :: c2))
    as (p1 & c1 & p2 & c2 & Hlen & ->).
  { unfold filter_loop. rewrite Hsplit, foldl_app.
    destruct (filter_fold_extends sqlMap query l1 ([], []))
      as (p1 & c1 & -> & Hlen1).
    cbn [foldl fst snd app]. exists p1, c1.
    assert (filter_step sqlMap query (p1, c1) key =
              (p1 ++ [obj_get query key],
               c1 ++ [text +:+ " $" +:+ pretty (length p1 + 1)])) as ->.
    { unfold filter_step. by rewrite Htruthy, Htable, length_app. }
    destruct (filter_fold_extends sqlMap query l2
                (p1 ++ [obj_get query key],
                 c1 ++ [text +:+ " $" +:+ pretty (length p1 + 1)]))
      as (p2 & c2 & -> & Hlen2). simpl.
    exists p2, c2. by rewrite <- !(assoc_L (++)). }
  exists (length p1). simpl. split.
  - by apply list_lookup_middle.
  - by apply list_lookup_middle.
Qed.

(** The conditions depend on the query only through its keys and the
    truthiness of their values. *)
Lemma filter_fold_shape sqlMap q1 q2 ks st1 st2 :
  (∀ k, truthy (obj_get q1 k) = truthy (obj_get q2 k)) →
  st1.2 = st2.2 → length st1.1 = length st2.1 →
  (foldl (filter_step sqlMap q1) st1 ks).2 = (foldl (filter_step sqlMap q2) st2 ks).2.
Proof.
  intros Htruthy. revert st1 st2.
  induction ks as [|key ks IH]; intros [p1 c1] [p2 c2]; simpl; [done|].
  intros -> Hlen. apply IH.
  - unfold filter_step. rewrite (Htruthy key).
    destruct (truthy (obj_get q2 key)); [destruct (table_get sqlMap key)|]; simpl;
      [|done..].
    by rewrite !length_app, Hlen.
  - unfold filter_step. rewrite (Htruthy key).
    destruct (truthy (obj_get q2 key)); [destruct (table_get sqlMap key)|]; simpl;
      [|done..].
    by rewrite !length_app, Hlen.
Qed.

Lemma filter_loop_shape sqlMap q1 q2 :
  shape q1 = shape q2 → (filter_loop sqlMap q1).2 = (filter_loop sqlMap q2).2.
Proof.
  intros Hs. unfold filter_loop. rewrite (shape_keys _ _ Hs).
  apply filter_fold_shape; [|done..].
  intros k. by apply shape_truthy.
Qed.

(** A key whose value is falsy contributes nothing. *)
Lemma filter_step_falsy sqlMap query st key :
  truthy (obj_get query key) = false → filter_step sqlMap query st key = st.
Proof. intros Hf. destruct st. unfold filter_step. by rewrite Hf. Qed.

(** *** [sqlForPartialUpdate] *)

Lemma sqlForPartialUpdate_Return data jsToSql :
  data ≠ [] →
  sqlForPartialUpdate data jsToSql =
    Return {| setCols := join ", " (imap (col_fragment jsToSql) (Object_keys data));
              values := Object_values data |}.
Proof.
  intros Hne. unfold sqlForPartialUpdate.
  rewrite bool_decide_false; [done|].
  rewrite length_Object_keys. by destruct data.
Qed.

Lemma sqlForPartialUpdate_Throw data jsToSql :
  data = [] → sqlForPartialUpdate data jsToSql = Throw (BadRequestError "No data").
Proof. by intros ->. Qed.

Lemma col_fragment_lookup jsToSql data i key v :
  data !! i = Some (key, v) →
  imap (col_fragment jsToSql) (Object_keys data) !! i =
    Some (dquote +:+ column jsToSql key +:+ dquote +:+ "=$" +:+ pretty (i + 1)).
Proof.
  unfold Obj, Object_keys in *. intros Hi.
  by rewrite list_lookup_imap, list_lookup_fmap, Hi.
Qed.

End Properties.

(** ** The partial-update builder *)

Section PartialUpdateBuilder.
Context {num : Type} `{!JsRuntime num}.
Implicit Types (data : @Obj num) (jsToSql : gmap string string).

(** C1: the clause text [setCols] is computed from the key names, the
    column table and fixed syntax only.  Two partial-update maps with the
    same keys in the same order give the same [setCols] (or both throw),
    whatever their values are; a returned [setCols] is the join of the
    fragments made from each key and its position, and the values are
    returned, unchanged and in key order, in [values]. *)
Theorem sqlForPartialUpdate_setCols_independent_of_values jsToSql data1 data2 :
  Object_keys data1 = Object_keys data2 →
  completion_map setCols (sqlForPartialUpdate data1 jsToSql)
    = completion_map setCols (sqlForPartialUpdate data2 jsToSql)
  ∧ (∀ r, sqlForPartialUpdate data1 jsToSql = Return r →
          setCols r = join ", " (imap (col_fragment jsToSql) (Object_keys data2))
          ∧ values r = Object_values data1).
Proof.
  intros Hkeys. split.
  - unfold sqlForPartialUpdate. rewrite Hkeys.
    by destruct (bool_decide (length (Object_keys data2) = 0)).
  - intros r. unfold sqlForPartialUpdate. rewrite Hkeys.
    destruct (bool_decide (length (Object_keys data2) = 0)); [done|].
    by intros [= <-].
Qed.

(** C3: for a non-empty partial-update map of size N, [setCols] is the
    join of exactly N fragments and [values] has exactly N entries; the
    fragment at (0-based) position i is the quoted column of the i-th key
    followed by [=$] and the decimal numeral of i+1, and the value at
    position i is the value of the i-th key. *)
Theorem sqlForPartialUpdate_fragments_and_values jsToSql data :
  data ≠ [] →
  ∃ cols vals,
    sqlForPartialUpdate data jsToSql
      = Return {| setCols := join ", " cols; values := vals |}
    ∧ length cols = length data
    ∧ length vals = length data
    ∧ ∀ i key v, data !! i = Some (key, v) →
        cols !! i = Some (dquote +:+ column jsToSql key +:+ dquote
                          +:+ "=$" +:+ pretty (i + 1))
        ∧ vals !! i = Some v.
Proof.
  intros Hne.
  exists (imap (col_fragment jsToSql) (Object_keys data)), (Object_values data).
  split_and!.
  - by apply sqlForPartialUpdate_Return.
  - by rewrite length_imap, length_Object_keys.
  - apply length_Object_values.
  - intros i key v Hi. split.
    + by apply col_fragment_lookup with v.
    + unfold Obj, Object_values in *. by rewrite list_lookup_fmap, Hi.
Qed.

(** C4: a partial-update map without keys makes [sqlForPartialUpdate]
    throw [BadRequestError("No data")]; the outcome is the exception alone,
    no clause text and no value list come with it. *)
Theorem sqlForPartialUpdate_no_data jsToSql data :
  length (Object_keys data) = 0 →
  sqlForPartialUpdate data jsToSql = Throw (BadRequestError "No data")
  ∧ ∀ r, sqlForPartialUpdate data jsToSql ≠ Return r.
Proof.
  rewrite length_Object_keys. intros ->%nil_length_inv.
  by rewrite (sqlForPartialUpdate_Throw [] jsToSql).
Qed.

(** C5: with the column table of [Company.update] and the map
    [{numEmployees: 5, name: "Acme"}], the fragments are
    ["num_employees"=$1] and ["name"=$2], joined by [", "] in [setCols],
    and [values] is [[5, "Acme"]]. *)
Theorem sqlForPartialUpdate_company_example :
  imap (col_fragment Company_jsToSql)
       (Object_keys [("numEmployees", JNum (num_of_Z 5)); ("name", JStr "Acme")])
    = [ dquote +:+ "num_employees" +:+ dquote +:+ "=$1";
        dquote +:+ "name" +:+ dquote +:+ "=$2" ]
  ∧ sqlForPartialUpdate
      [("numEmployees", JNum (num_of_Z 5)); ("name", JStr "Acme")]
      Company_jsToSql
    = Return {| setCols := dquote +:+ "num_employees" +:+ dquote +:+ "=$1, "
                           +:+ dquote +:+ "name" +:+ dquote +:+ "=$2";
                values := [JNum (num_of_Z 5); JStr "Acme"] |}.
Proof. split; reflexivity. Qed.

End PartialUpdateBuilder.

(** ** The filter builders *)

Section FilterBuilder.
Context {num : Type} `{!JsRuntime num}.
Implicit Types (query : @Obj num) (v : JsVal num).

Lemma Company_filter_rejects_falsy query :
  truthy (obj_get query "nameLike") = false →
  truthy (obj_get query "minEmployees") = false →
  truthy (obj_get query "maxEmployees") = false →
  Company_filter query = (query, Throw (BadRequestError "Invalid search criteria")).
Proof. intros H1 H2 H3. unfold Company_filter. by rewrite H1, H2, H3. Qed.

Lemma Job_filter_rejects_falsy query :
  truthy (obj_get query "title") = false →
  truthy (obj_get query "minSalary") = false →
  truthy (obj_get query "hasEquity") = false →
  Job_filter query = (query, Throw (BadRequestError "Invalid search criteria")).
Proof. intros H1 H2 H3. unfold Job_filter. by rewrite H1, H2, H3. Qed.

(** What [Company.filter] does once both checks have passed. *)
Lemma Company_filter_accepts query :
  truthy (obj_get query "nameLike")
    || truthy (obj_get query "minEmployees")
    || truthy (obj_get query "maxEmployees") = true →
  truthy (obj_get query "minEmployees")
    && truthy (obj_get query "maxEmployees")
    && num_gt (ToNumber (obj_get query "minEmployees"))
              (ToNumber (obj_get query "maxEmployees")) = false →
  let query' :=
    if truthy (obj_get query "nameLike")
    then obj_set query "nameLike" (wildcard (obj_get query "nameLike"))
    else query in
  Company_filter query =
    (query',
     Return {| queryText := Company_filter_queryStmt
                              (join " AND " (filter_loop Company_sqlMap query').2);
               queryParams := (filter_loop Company_sqlMap query').1 |}).
Proof.
  intros Hsome Hrange. unfold Company_filter. rewrite Hrange.
  rewrite <- !negb_orb, Hsome. simpl.
  by destruct (filter_loop Company_sqlMap _).
Qed.

Lemma Company_filter_Return_inv query out stmt :
  Company_filter query = (out, Return stmt) →
  let query' :=
    if truthy (obj_get query "nameLike")
    then obj_set query "nameLike" (wildcard (obj_get query "nameLike"))
    else query in
  out = query'
  ∧ stmt = {| queryText := Company_filter_queryStmt
                             (join " AND " (filter_loop Company_sqlMap query').2);
              queryParams := (filter_loop Company_sqlMap query').1 |}.
Proof.
  unfold Company_filter.
  destruct (negb _ && negb _ && negb _); [done|].
  destruct (truthy _ && truthy _ && num_gt _ _); [done|].
  cbv zeta. destruct (filter_loop Company_sqlMap _) as [params conditions].
  by intros [= <- <-].
Qed.

(** What [Job.filter] does once its check has passed. *)
Lemma Job_filter_accepts query :
  truthy (obj_get query "title")
    || truthy (obj_get query "minSalary")
    || truthy (obj_get query "hasEquity") = true →
  let query' :=
    if truthy (obj_get query "title")
    then obj_set query "title" (wildcard (obj_get query "title"))
    else query in
  Job_filter query =
    (query',
     Return {| queryText := Job_filter_queryStmt
                              (join " AND " (filter_loop (Job_sqlMap query') query').2);
               queryParams := (filter_loop (Job_sqlMap query') query').1 |}).
Proof.
  intros Hsome. unfold Job_filter.
  rewrite <- !negb_orb, Hsome. simpl.
  by destruct (filter_loop (Job_sqlMap _) _).
Qed.

(** C6: a criteria map with none of the recognized keys of the entity
    (the empty map among them) makes the filter throw
    [BadRequestError("Invalid search criteria")], for [Company.filter]
    (nameLike, minEmployees, maxEmployees) and for [Job.filter]
    (title, minSalary, hasEquity). *)
Theorem filter_rejects_unrecognized_criteria query :
  ("nameLike" ∉ Object_keys query →
   "minEmployees" ∉ Object_keys query →
   "maxEmployees" ∉ Object_keys query →
   Company_filter query
     = (query, Throw (BadRequestError "Invalid search criteria")))
  ∧ ("title" ∉ Object_keys query →
     "minSalary" ∉ Object_keys query →
     "hasEquity" ∉ Object_keys query →
     Job_filter query
       = (query, Throw (BadRequestError "Invalid search criteria"))).
Proof.
  split; intros H1 H2 H3.
  - apply Company_filter_rejects_falsy; by rewrite obj_get_absent.
  - apply Job_filter_rejects_falsy; by rewrite obj_get_absent.
Qed.

(** The range check where it is reached: when [minEmployees] and
    [maxEmployees] both have a truthy value and the number read from the
    minimum is greater than the number read from the maximum,
    [Company.filter] throws [BadRequestError]; the query object is untouched
    and no statement is built. *)
Theorem Company_filter_rejects_min_above_max query :
  truthy (obj_get query "minEmployees") = true →
  truthy (obj_get query "maxEmployees") = true →
  num_gt (ToNumber (obj_get query "minEmployees"))
         (ToNumber (obj_get query "maxEmployees")) = true →
  Company_filter query
    = (query, Throw (BadRequestError
                "Invalid request, minEmployees can not exceed maxEmployees")).
Proof.
  intros Hmin Hmax Hgt. unfold Company_filter.
  rewrite Hmin, Hmax, Hgt. simpl. by rewrite andb_false_r.
Qed.

(** C8, as the code has it: when [nameLike] has a truthy value [s] and the
    range check passes, [Company.filter] replaces [s] by the wrapped
    pattern [%s%] before the loop, binds the wrapped pattern (which is
    never [s] itself) at the position that the condition
    [name ILIKE $position] names, and builds a statement text that depends
    on the criteria only through their keys and the truthiness of their
    values. *)
Theorem Company_filter_binds_wrapped_nameLike query s :
  obj_get query "nameLike" = s →
  truthy s = true →
  truthy (obj_get query "minEmployees")
    && truthy (obj_get query "maxEmployees")
    && num_gt (ToNumber (obj_get query "minEmployees"))
              (ToNumber (obj_get query "maxEmployees")) = false →
  ∃ params conditions i,
    Company_filter query
      = (obj_set query "nameLike" (wildcard s),
         Return {| queryText := Company_filter_queryStmt (join " AND " conditions);
                   queryParams := params |})
    ∧ params !! i = Some (wildcard s)
    ∧ conditions !! i = Some ("name ILIKE $" +:+ pretty (i + 1))
    ∧ wildcard s ≠ s
    ∧ ∀ query2 out2 stmt2,
        shape query2 = shape query →
        Company_filter query2 = (out2, Return stmt2) →
        queryText stmt2 = Company_filter_queryStmt (join " AND " conditions).
Proof.
  intros Hs Htruthy Hrange.
  pose proof (Company_filter_accepts query) as Hrun.
  rewrite Hs, Htruthy in Hrun. specialize (Hrun eq_refl Hrange). simpl in Hrun.
  set (query' := obj_set query "nameLike" (wildcard s)) in *.
  assert (Hshape : shape query' = shape query).
  { apply shape_set; [by rewrite Hs | done]. }
  destruct (filter_loop_binds Company_sqlMap query' "nameLike" "name ILIKE")
    as (i & Hparam & Hcond).
  { unfold query'. rewrite Object_keys_set; apply obj_get_present; by rewrite Hs. }
  { unfold query'. by rewrite obj_get_set_eq. }
  { done. }
  exists (filter_loop Company_sqlMap query').1,
         (filter_loop Company_sqlMap query').2, i.
  split_and!; [done | | done | apply wildcard_neq |].
  { rewrite Hparam. unfold query'. by rewrite obj_get_set_eq. }
  intros query2 out2 stmt2 Hshape2 Hrun2.
  apply Company_filter_Return_inv in Hrun2 as [-> ->]. simpl. do 2 f_equal.
  apply filter_loop_shape. rewrite Hshape, <- Hshape2.
  destruct (truthy (obj_get query2 "nameLike")) eqn:Hname2; [|done].
  by apply shape_set.
Qed.

(** C9, as the code has it: [sqlForPartialUpdate] leaves the two objects it
    is passed as they were.  The filters change the caller's criteria map in
    exactly one way: a call that found a truthy [nameLike] ([title] for
    [Job.filter]) and returns a statement has overwritten that value, in
    place, with its wrapped pattern, so that the map is no longer the one
    passed; every other key keeps its value, the keys and their order are
    unchanged, and a call that throws, or that finds the text criterion
    falsy, leaves the map as it was. *)
Theorem filter_changes_only_the_text_criterion
    query (data : @Obj num) (jsToSql : gmap string string) :
  (sqlForPartialUpdate_call data jsToSql).1 = (data, jsToSql)
  ∧ (let out := (Company_filter query).1 in
     (truthy (obj_get query "nameLike") = true →
      (∃ stmt, (Company_filter query).2 = Return stmt) →
      out = obj_set query "nameLike" (wildcard (obj_get query "nameLike"))
      ∧ obj_get out "nameLike" = wildcard (obj_get query "nameLike")
      ∧ out ≠ query)
     ∧ ((∃ e, (Company_filter query).2 = Throw e) → out = query)
     ∧ (truthy (obj_get query "nameLike") = false → out = query)
     ∧ Object_keys out = Object_keys query
     ∧ ∀ k, k ≠ "nameLike" → obj_get out k = obj_get query k)
  ∧ (let out := (Job_filter query).1 in
     (truthy (obj_get query "title") = true →
      (∃ stmt, (Job_filter query).2 = Return stmt) →
      out = obj_set query "title" (wildcard (obj_get query "title"))
      ∧ obj_get out "title" = wildcard (obj_get query "title")
      ∧ out ≠ query)
     ∧ ((∃ e, (Job_filter query).2 = Throw e) → out = query)
     ∧ (truthy (obj_get query "title") = false → out = query)
     ∧ Object_keys out = Object_keys query
     ∧ ∀ k, k ≠ "title" → obj_get out k = obj_get query k).
Proof.
  assert (Hwritten : ∀ name,
            obj_set query name (wildcard (obj_get query name)) ≠ query).
  { intros name Heq. apply (f_equal (λ o, obj_get o name)) in Heq.
    rewrite obj_get_set_eq in Heq. by apply wildcard_neq in Heq. }
  split_and!; [done | |].
  - unfold Company_filter.
    destruct (negb _ && negb _ && negb _);
      [split_and!; [by intros _ [? [=]] | done..]|].
    destruct (truthy _ && truthy _ && num_gt _ _);
      [split_and!; [by intros _ [? [=]] | done..]|].
    destruct (truthy (obj_get query "nameLike")) eqn:Hname;
      destruct (filter_loop Company_sqlMap _) as [params conditions]; simpl.
    + split_and!; [| by intros [? ?] | done | |].
      * intros _ _. split_and!; [done | apply obj_get_set_eq | apply Hwritten].
      * apply Object_keys_set. by apply obj_get_present.
      * intros k Hk. by apply obj_get_set_ne.
    + split_and!; done.
  - unfold Job_filter.
    destruct (negb _ && negb _ && negb _);
      [split_and!; [by intros _ [? [=]] | done..]|].
    destruct (truthy (obj_get query "title")) eqn:Htitle;
      destruct (filter_loop (Job_sqlMap _) _) as [params conditions]; simpl.
    + split_and!; [| by intros [? ?] | done | |].
      * intros _ _. split_and!; [done | apply obj_get_set_eq | apply Hwritten].
      * apply Object_keys_set. by apply obj_get_present.
      * intros k Hk. by apply obj_get_set_ne.
    + split_and!; done.
Qed.

(** C2: for every truthy [hasEquity] flag, the boolean [true] among them,
    the condition that [Job.filter] builds reads [equity false $1] and
    binds the flag itself; it is not a comparison of [equity] with zero. *)
Theorem Job_filter_hasEquity_condition v :
  truthy v = true →
  Job_filter [("hasEquity", v)]
    = ([("hasEquity", v)],
       Return {| queryText := Job_filter_queryStmt "equity false $1";
                 queryParams := [v] |}).
Proof.
  intros Hv. set (query := [("hasEquity", v)]).
  assert (Htitle : obj_get query "title" = JUndefined) by reflexivity.
  assert (Hflag : obj_get query "hasEquity" = v) by reflexivity.
  assert (Htext : Job_hasEquity_text query = "equity false").
  { unfold Job_hasEquity_text. by rewrite Hflag, Hv. }
  assert (Htable : table_get (Job_sqlMap query) "hasEquity" = Some "equity false").
  { unfold table_get, Job_sqlMap. rewrite Htext. reflexivity. }
  rewrite Job_filter_accepts by (by rewrite Hflag, Hv, orb_true_r).
  rewrite Htitle. cbn [truthy].
  assert (filter_loop (Job_sqlMap query) query = ([v], ["equity false $1"])) as ->.
  { unfold filter_loop. cbn [Object_keys query fmap list_fmap fst foldl].
    unfold filter_step. by rewrite Hflag, Hv, Htable. }
  reflexivity.
Qed.

(** A falsy or missing [hasEquity] adds nothing to the predicate. *)
Lemma Job_filter_hasEquity_falsy query st :
  truthy (obj_get query "hasEquity") = false →
  filter_step (Job_sqlMap query) query st "hasEquity" = st.
Proof. apply filter_step_falsy. Qed.

End FilterBuilder.

(** ** The guard of [Job.update] *)

Section JobUpdate.
Context {num : Type} `{!JsRuntime num}.
Implicit Types (data : @Obj num) (id v : JsVal num).

Lemma Job_update_guarded id data :
  truthy (obj_get data "id") || truthy (obj_get data "companyHandle") = true →
  Job_update id data = Throw Job_immutable_error.
Proof. intros Hguard. unfold Job_update. by rewrite Hguard. Qed.

Lemma Job_update_unguarded id data :
  truthy (obj_get data "id") || truthy (obj_get data "companyHandle") = false →
  data ≠ [] →
  Job_update id data =
    Return {| queryText :=
                Job_update_querySql
                  (join ", " (imap (col_fragment Job_jsToSql) (Object_keys data)))
                  (pretty (length data + 1));
              queryParams := Object_values data ++ [id] |}.
Proof.
  intros Hguard Hne. unfold Job_update.
  rewrite Hguard, sqlForPartialUpdate_Return by done. simpl.
  by rewrite length_app, length_Object_values.
Qed.

(** C10, as the code has it: [Job.update] throws its immutable-field
    [BadRequestError] exactly when [data.id] or [data.companyHandle] is
    truthy.  When neither is truthy, no such error is thrown even if the
    keys are present (with values such as [0] or the empty string), and each
    of them that is present goes into the assignment clause of the statement
    as a fragment of its own: ["id"=$position] for [id] and
    ["company_handle"=$position] for [companyHandle]. *)
Theorem Job_update_guard_tests_truthiness id data :
  (Job_update id data = Throw Job_immutable_error
     ↔ truthy (obj_get data "id") = true
       ∨ truthy (obj_get data "companyHandle") = true)
  ∧ (truthy (obj_get data "id") = false →
     truthy (obj_get data "companyHandle") = false →
     ∀ i key v,
       data !! i = Some (key, v) →
       key = "id" ∨ key = "companyHandle" →
       ∃ cols,
         Job_update id data
           = Return {| queryText :=
                         Job_update_querySql (join ", " cols)
                                             (pretty (length data + 1));
                       queryParams := Object_values data ++ [id] |}
         ∧ cols !! i
           = Some (dquote
                   +:+ (if bool_decide (key = "id") then "id" else "company_handle")
                   +:+ dquote +:+ "=$" +:+ pretty (i + 1))).
Proof.
  split.
  - rewrite <- orb_true_iff. split.
    + destruct (truthy _ || truthy _) eqn:Hguard; [done|].
      destruct data as [|kv data].
      * by vm_compute.
      * by rewrite Job_update_unguarded.
    + apply Job_update_guarded.
  - intros Hid Hhandle i key v Hi Hkey.
    exists (imap (col_fragment Job_jsToSql) (Object_keys data)). split.
    + apply Job_update_unguarded; [by rewrite Hid, Hhandle|].
      by intros ->.
    + rewrite (col_fragment_lookup _ _ _ _ _ Hi).
      by destruct Hkey as [-> | ->].
Qed.

End JobUpdate.

(** ** The code at concrete inputs *)

(** Two update maps with the same keys and different values. *)
Definition update_acme : @Obj Zdouble :=
  [("name", JStr "Acme"); ("numEmployees", jnum 5)].
Definition update_quoted : @Obj Zdouble :=
  [("name", JStr "x', name='y"); ("numEmployees", jnum 0)].

Lemma sqlForPartialUpdate_setCols_independent_of_values_witness :
  Object_keys update_acme = Object_keys update_quoted
  ∧ completion_map setCols (sqlForPartialUpdate update_acme Company_jsToSql)
    = completion_map setCols (sqlForPartialUpdate update_quoted Company_jsToSql)
  ∧ (∀ r, sqlForPartialUpdate update_acme Company_jsToSql = Return r →
          setCols r = join ", " (imap (col_fragment Company_jsToSql)
                                      (Object_keys update_quoted))
          ∧ values r = Object_values update_acme).
Proof.
  split; [reflexivity|].
  apply (sqlForPartialUpdate_setCols_independent_of_values
           Company_jsToSql update_acme update_quoted).
  reflexivity.
Defined.

Lemma sqlForPartialUpdate_fragments_and_values_witness :
  update_acme ≠ []
  ∧ ∃ cols vals,
      sqlForPartialUpdate update_acme Company_jsToSql
        = Return {| setCols := join ", " cols; values := vals |}
      ∧ length cols = length update_acme
      ∧ length vals = length update_acme
      ∧ ∀ i key v, update_acme !! i = Some (key, v) →
          cols !! i = Some (dquote +:+ column Company_jsToSql key +:+ dquote
                            +:+ "=$" +:+ pretty (i + 1))
          ∧ vals !! i = Some v.
Proof.
  split; [discriminate|].
  apply (sqlForPartialUpdate_fragments_and_values Company_jsToSql update_acme).
  discriminate.
Defined.

Lemma sqlForPartialUpdate_no_data_witness :
  length (Object_keys (@nil (string * JsVal Zdouble))) = 0
  ∧ sqlForPartialUpdate (@nil (string * JsVal Zdouble)) Company_jsToSql
    = Throw (BadRequestError "No data")
  ∧ ∀ r, sqlForPartialUpdate (@nil (string * JsVal Zdouble)) Company_jsToSql
         ≠ Return r.
Proof.
  split; [reflexivity|].
  apply (sqlForPartialUpdate_no_data Company_jsToSql []).
  reflexivity.
Defined.

(** Criteria without a recognized key. *)
Definition criteria_unrecognized : @Obj Zdouble := [("handle", JStr "c1")].

Lemma filter_rejects_unrecognized_criteria_witness :
  Company_filter criteria_unrecognized
    = (criteria_unrecognized, Throw (BadRequestError "Invalid search criteria"))
  ∧ Job_filter criteria_unrecognized
    = (criteria_unrecognized, Throw (BadRequestError "Invalid search criteria"))
  ∧ Company_filter (@nil (string * JsVal Zdouble))
    = ([], Throw (BadRequestError "Invalid search criteria"))
  ∧ Job_filter (@nil (string * JsVal Zdouble))
    = ([], Throw (BadRequestError "Invalid search criteria")).
Proof.
  assert (∀ k : string, k ≠ "handle" → k ∉ Object_keys criteria_unrecognized)
    as Habsent.
  { intros k Hk [->|[]%elem_of_nil]%elem_of_cons. done. }
  split_and!.
  - apply (filter_rejects_unrecognized_criteria criteria_unrecognized);
      by apply Habsent.
  - apply (filter_rejects_unrecognized_criteria criteria_unrecognized);
      by apply Habsent.
  - apply (filter_rejects_unrecognized_criteria []); apply not_elem_of_nil.
  - apply (filter_rejects_unrecognized_criteria []); apply not_elem_of_nil.
Defined.

(** The criteria of the specification's range example, as numbers and as the
    strings a query string carries. *)
Definition criteria_min_10_max_5 : @Obj Zdouble :=
  [("minEmployees", jnum 10); ("maxEmployees", jnum 5)].
Definition criteria_min_10_max_5_strings : @Obj Zdouble :=
  [("minEmployees", JStr "10"); ("maxEmployees", JStr "5")].

Lemma Company_filter_rejects_min_above_max_witness :
  Company_filter criteria_min_10_max_5
    = (criteria_min_10_max_5,
       Throw (BadRequestError
                "Invalid request, minEmployees can not exceed maxEmployees"))
  ∧ Company_filter criteria_min_10_max_5_strings
    = (criteria_min_10_max_5_strings,
       Throw (BadRequestError
                "Invalid request, minEmployees can not exceed maxEmployees")).
Proof.
  split.
  - apply (Company_filter_rejects_min_above_max criteria_min_10_max_5);
      reflexivity.
  - apply (Company_filter_rejects_min_above_max criteria_min_10_max_5_strings);
      reflexivity.
Defined.

(** Both bounds are present and 10 exceeds 0, yet the maximum [0] is falsy:
    the range check is skipped and a statement is built from the minimum
    alone. *)
Definition criteria_min_10_max_0 : @Obj Zdouble :=
  [("minEmployees", jnum 10); ("maxEmployees", jnum 0)].

(** C7: at [{minEmployees: 10, maxEmployees: 0}] both bounds are present
    and the minimum exceeds the maximum, yet [Company.filter] throws nothing:
    the guard [query.minEmployees && query.maxEmployees] reads the maximum
    [0] as missing, the comparison is not made, and the statement built keeps
    the minimum alone. *)
Lemma Company_filter_accepts_min_above_zero_max :
  "minEmployees" ∈ Object_keys criteria_min_10_max_0
  ∧ "maxEmployees" ∈ Object_keys criteria_min_10_max_0
  ∧ num_gt (ToNumber (obj_get criteria_min_10_max_0 "minEmployees"))
           (ToNumber (obj_get criteria_min_10_max_0 "maxEmployees")) = true
  ∧ Company_filter criteria_min_10_max_0
    = (criteria_min_10_max_0,
       Return {| queryText := Company_filter_queryStmt "num_employees >= $1";
                 queryParams := [jnum 10] |}).
Proof.
  split_and!; [| | reflexivity | reflexivity].
  - apply list_elem_of_here.
  - apply list_elem_of_further, list_elem_of_here.
Qed.

(** The criteria of the specification's text example. *)
Definition criteria_tech : @Obj Zdouble := [("nameLike", JStr "tech")].

Lemma Company_filter_binds_wrapped_nameLike_witness :
  ∃ params conditions i,
    Company_filter criteria_tech
      = (obj_set criteria_tech "nameLike" (wildcard (JStr "tech")),
         Return {| queryText := Company_filter_queryStmt (join " AND " conditions);
                   queryParams := params |})
    ∧ params !! i = Some (wildcard (JStr "tech"))
    ∧ conditions !! i = Some ("name ILIKE $" +:+ pretty (i + 1))
    ∧ wildcard (JStr "tech") ≠ (JStr "tech" : JsVal Zdouble)
    ∧ ∀ query2 out2 stmt2,
        shape query2 = shape criteria_tech →
        Company_filter query2 = (out2, Return stmt2) →
        queryText stmt2 = Company_filter_queryStmt (join " AND " conditions).
Proof.
  apply (Company_filter_binds_wrapped_nameLike criteria_tech (JStr "tech"));
    reflexivity.
Defined.

(** [nameLike] is present with the empty string as its value: it is falsy,
    so it is neither wrapped nor bound, and the statement is built from the
    other criterion alone. *)
Definition criteria_empty_nameLike : @Obj Zdouble :=
  [("nameLike", JStr EmptyString); ("minEmployees", jnum 5)].

Lemma Company_filter_skips_empty_nameLike :
  "nameLike" ∈ Object_keys criteria_empty_nameLike
  ∧ obj_get criteria_empty_nameLike "nameLike" = JStr EmptyString
  ∧ Company_filter criteria_empty_nameLike
    = (criteria_empty_nameLike,
       Return {| queryText := Company_filter_queryStmt "num_employees >= $1";
                 queryParams := [jnum 5] |})
  ∧ wildcard (JStr EmptyString) ∉ [jnum 5].
Proof.
  split_and!; [apply list_elem_of_here | reflexivity | reflexivity |].
  by intros [[=]|[]%elem_of_nil]%elem_of_cons.
Qed.

Lemma filter_changes_only_the_text_criterion_witness :
  (sqlForPartialUpdate_call update_acme Company_jsToSql).1
    = (update_acme, Company_jsToSql)
  ∧ ((Company_filter criteria_tech).1
       = obj_set criteria_tech "nameLike" (wildcard (JStr "tech"))
     ∧ obj_get (Company_filter criteria_tech).1 "nameLike" = wildcard (JStr "tech")
     ∧ (Company_filter criteria_tech).1 ≠ criteria_tech)
  ∧ (Company_filter criteria_min_10_max_5).1 = criteria_min_10_max_5
  ∧ (Job_filter criteria_unrecognized).1 = criteria_unrecognized.
Proof.
  split; [|split; [|split]].
  - apply (filter_changes_only_the_text_criterion
             criteria_tech update_acme Company_jsToSql).
  - destruct (filter_changes_only_the_text_criterion
                criteria_tech update_acme Company_jsToSql)
      as (_ & (Hwritten & _) & _).
    apply Hwritten; [reflexivity | eexists; reflexivity].
  - destruct (filter_changes_only_the_text_criterion
                criteria_min_10_max_5 update_acme Company_jsToSql)
      as (_ & (_ & Hthrown & _) & _).
    apply Hthrown. eexists. reflexivity.
  - destruct (filter_changes_only_the_text_criterion
                criteria_unrecognized update_acme Company_jsToSql)
      as (_ & _ & (_ & _ & Hfalsy & _)).
    apply Hfalsy. reflexivity.
Defined.

(** After the call the caller's object holds the wrapped pattern, not the
    value it was given: the filters write to their argument. *)
Definition criteria_title : @Obj Zdouble := [("title", JStr "engineer")].

Lemma filter_overwrites_the_text_criterion :
  (Company_filter criteria_tech).1 = [("nameLike", JStr "%tech%")]
  ∧ obj_get (Company_filter criteria_tech).1 "nameLike"
    ≠ obj_get criteria_tech "nameLike"
  ∧ (Job_filter criteria_title).1 = [("title", JStr "%engineer%")]
  ∧ obj_get (Job_filter criteria_title).1 "title"
    ≠ obj_get criteria_title "title".
Proof. split_and!; [reflexivity | discriminate | reflexivity | discriminate]. Qed.

(** The posting criteria [{hasEquity: true}]. *)
Lemma Job_filter_hasEquity_condition_witness :
  Job_filter [("hasEquity", @JBool Zdouble true)]
    = ([("hasEquity", JBool true)],
       Return {| queryText := Job_filter_queryStmt "equity false $1";
                 queryParams := [JBool true] |}).
Proof. apply (Job_filter_hasEquity_condition (JBool true)). reflexivity. Defined.

(** Update maps whose [id] is [0] and whose [companyHandle] is empty. *)
Definition update_id_0 : @Obj Zdouble := [("title", JStr "t"); ("id", jnum 0)].
Definition update_handle_empty : @Obj Zdouble :=
  [("companyHandle", JStr EmptyString)].

Lemma Job_update_guard_tests_truthiness_witness :
  (∃ cols,
     Job_update (jnum 7) update_id_0
       = Return {| queryText := Job_update_querySql (join ", " cols) (pretty 3);
                   queryParams := [JStr "t"; jnum 0; jnum 7] |}
     ∧ cols !! 1 = Some (dquote +:+ "id" +:+ dquote +:+ "=$2"))
  ∧ (∃ cols,
       Job_update (jnum 7) update_handle_empty
         = Return {| queryText := Job_update_querySql (join ", " cols) (pretty 2);
                     queryParams := [JStr EmptyString; jnum 7] |}
       ∧ cols !! 0 = Some (dquote +:+ "company_handle" +:+ dquote +:+ "=$1")).
Proof.
  split.
  - destruct (Job_update_guard_tests_truthiness (jnum 7) update_id_0) as [_ Hflow].
    apply (Hflow eq_refl eq_refl 1 "id" (jnum 0)); [reflexivity | by left].
  - destruct (Job_update_guard_tests_truthiness (jnum 7) update_handle_empty)
      as [_ Hflow].
    apply (Hflow eq_refl eq_refl 0 "companyHandle" (JStr EmptyString));
      [reflexivity | by right].
Defined.

(** The key [id] is present with the falsy value [0], and the call still
    throws the immutable-field error: [companyHandle] beside it is truthy. *)
Definition update_id_0_handle_c4 : @Obj Zdouble :=
  [("id", jnum 0); ("companyHandle", JStr "c4")].

Lemma Job_update_rejects_falsy_id_beside_truthy_handle :
  "id" ∈ Object_keys update_id_0_handle_c4
  ∧ truthy (obj_get update_id_0_handle_c4 "id") = false
  ∧ Job_update (jnum 7) update_id_0_handle_c4 = Throw Job_immutable_error.
Proof. split_and!; [apply list_elem_of_here | reflexivity | reflexivity]. Qed.

(** ** More on the loop of the filters *)

Section FilterLoop.
Context {num : Type} `{!JsRuntime num}.
Implicit Types (query : @Obj num) (sqlMap : gmap string string) (k key : string).

(** The keys the loop acts on: those with a truthy value in the query and a
    truthy entry in the table, in the order of the query. *)
Definition selected sqlMap query (keys : list string) : list string :=
  filter (λ key, truthy (obj_get query key) = true
                 ∧ is_Some (table_get sqlMap key)) keys.

(** The condition pushed for a key when [params] has reached [position]
    entries. *)
Definition condition_at sqlMap (position : nat) key : string :=
  default EmptyString (table_get sqlMap key) +:+ " $" +:+ pretty position.

Lemma filter_fold_closed_form sqlMap query keys params conditions :
  foldl (filter_step sqlMap query) (params, conditions) keys
  = (params ++ (obj_get query <$> selected sqlMap query keys),
     conditions ++ imap (λ i, condition_at sqlMap (length params + i + 1))
                        (selected sqlMap query keys)).
Proof.
  revert params conditions.
  induction keys as [|key keys IH]; intros params conditions.
  - by rewrite !app_nil_r.
  - unfold selected in *. rewrite filter_cons. cbn [foldl].
    destruct (truthy (obj_get query key)) eqn:Htruthy;
      [destruct (table_get sqlMap key) as [text|] eqn:Htable|].
    + rewrite decide_True by (split; [done | by eexists]).
      assert (filter_step sqlMap query (params, conditions) key
              = (params ++ [obj_get query key],
                 conditions ++ [text +:+ " $" +:+ pretty (length params + 1)]))
        as ->.
      { unfold filter_step. by rewrite Htruthy, Htable, length_app. }
      rewrite IH, <- !(assoc_L (++)). cbn [fmap list_fmap imap app].
      do 2 f_equal. f_equal.
      * unfold condition_at. rewrite Htable, Nat.add_0_r. done.
      * apply imap_ext. intros i k _. unfold condition_at. simpl.
        rewrite length_app. simpl. do 3 f_equal. lia.
    + rewrite decide_False by (by intros [_ [? [=]]]).
      assert (filter_step sqlMap query (params, conditions) key
              = (params, conditions)) as ->.
      { unfold filter_step. by rewrite Htruthy, Htable. }
      apply IH.
    + rewrite decide_False by (by intros [[=] _]).
      rewrite filter_step_falsy by done. apply IH.
Qed.

(** X1: the loop of the filters yields one parameter and one condition for
    each key of the query that has a truthy value and a truthy table entry,
    in the order of the keys; the condition at (0-based) position i is the
    table text followed by [ $] and the numeral of i+1, and the parameter at
    position i is the value of the same key. *)
Theorem filter_loop_closed_form sqlMap query :
  filter_loop sqlMap query
  = (obj_get query <$> selected sqlMap query (Object_keys query),
     imap (λ i, condition_at sqlMap (i + 1))
          (selected sqlMap query (Object_keys query))).
Proof.
  unfold filter_loop. rewrite filter_fold_closed_form. simpl.
  f_equal.
Qed.

End FilterLoop.

(** ** The outcomes of the filters *)

Section FilterOutcomes.
Context {num : Type} `{!JsRuntime num}.
Implicit Types (query : @Obj num) (k key : string).

Lemma Job_filter_Return_inv query out stmt :
  Job_filter query = (out, Return stmt) →
  let query' :=
    if truthy (obj_get query "title")
    then obj_set query "title" (wildcard (obj_get query "title"))
    else query in
  out = query'
  ∧ stmt = {| queryText := Job_filter_queryStmt
                             (join " AND " (filter_loop (Job_sqlMap query') query').2);
              queryParams := (filter_loop (Job_sqlMap query') query').1 |}.
Proof.
  unfold Job_filter.
  destruct (negb _ && negb _ && negb _); [done|].
  cbv zeta. destruct (filter_loop (Job_sqlMap _) _) as [params conditions].
  by intros [= <- <-].
Qed.

Lemma Job_sqlMap_hasEquity query :
  table_get (Job_sqlMap query) "hasEquity" = Some (Job_hasEquity_text query).
Proof.
  unfold table_get, Job_sqlMap.
  rewrite lookup_insert_ne, lookup_insert_ne, lookup_singleton_eq by done.
  done.
Qed.

Lemma Job_sqlMap_title query :
  table_get (Job_sqlMap query) "title" = Some "title ILIKE".
Proof. unfold table_get, Job_sqlMap. by rewrite lookup_insert_eq. Qed.

Lemma Job_sqlMap_minSalary query :
  table_get (Job_sqlMap query) "minSalary" = Some "salary >=".
Proof.
  unfold table_get, Job_sqlMap.
  by rewrite lookup_insert_ne, lookup_insert_eq by done.
Qed.

(** The value read for a key after the text criterion [name] has been
    wrapped is truthy whenever it was. *)
Lemma wrapped_truthy query name key :
  truthy (obj_get query key) = true →
  truthy (obj_get (if truthy (obj_get query name)
                   then obj_set query name (wildcard (obj_get query name))
                   else query) key) = true
  ∧ key ∈ Object_keys (if truthy (obj_get query name)
                       then obj_set query name (wildcard (obj_get query name))
                       else query).
Proof.
  intros Hkey. destruct (truthy (obj_get query name)) eqn:Hname.
  - split.
    + destruct (decide (name = key)) as [->|Hne].
      * by rewrite obj_get_set_eq.
      * by rewrite obj_get_set_ne.
    + rewrite Object_keys_set by (by apply obj_get_present).
      by apply obj_get_present.
  - split; [done | by apply obj_get_present].
Qed.

Lemma filter_loop_at_most_keys sqlMap query :
  length (filter_loop sqlMap query).2 ≤ length query.
Proof.
  rewrite filter_loop_closed_form. simpl. unfold selected.
  rewrite length_imap, <- (length_Object_keys query). apply length_filter.
Qed.

(** A statement built by the loop for a query in which some key with a
    table entry has a truthy value. *)
Lemma filter_loop_not_empty sqlMap query key text :
  truthy (obj_get query key) = true →
  key ∈ Object_keys query →
  table_get sqlMap key = Some text →
  0 < length (filter_loop sqlMap query).2.
Proof.
  intros Htruthy Hkey Htable.
  destruct (filter_loop_binds sqlMap query key text Hkey Htruthy Htable)
    as (i & _ & Hcond).
  apply lookup_lt_Some in Hcond. lia.
Qed.

Lemma Company_filter_range_guard query :
  truthy (obj_get query "minEmployees") = true →
  truthy (obj_get query "maxEmployees") = true →
  num_gt (ToNumber (obj_get query "minEmployees"))
         (ToNumber (obj_get query "maxEmployees")) = true →
  Company_filter query
    = (query, Throw (BadRequestError
                "Invalid request, minEmployees can not exceed maxEmployees")).
Proof.
  intros Hmin Hmax Hgt. unfold Company_filter.
  rewrite Hmin, Hmax, Hgt. simpl. by rewrite andb_false_r.
Qed.

(** X2: [Company.filter] throws in two cases only, when none of [nameLike],
    [minEmployees], [maxEmployees] is truthy and when both bounds are truthy
    with the minimum above the maximum.  A statement it builds has at least
    one condition, as many parameters as conditions, and at most one
    condition for each key of the query. *)
Theorem Company_filter_outcomes query :
  (∀ e, (Company_filter query).2 = Throw e ↔
     (truthy (obj_get query "nameLike") = false
      ∧ truthy (obj_get query "minEmployees") = false
      ∧ truthy (obj_get query "maxEmployees") = false
      ∧ e = BadRequestError "Invalid search criteria")
     ∨ (truthy (obj_get query "minEmployees") = true
        ∧ truthy (obj_get query "maxEmployees") = true
        ∧ num_gt (ToNumber (obj_get query "minEmployees"))
                 (ToNumber (obj_get query "maxEmployees")) = true
        ∧ e = BadRequestError
                "Invalid request, minEmployees can not exceed maxEmployees"))
  ∧ (∀ stmt, (Company_filter query).2 = Return stmt →
       ∃ params conditions,
         stmt = {| queryText := Company_filter_queryStmt (join " AND " conditions);
                   queryParams := params |}
         ∧ length params = length conditions
         ∧ 0 < length conditions
         ∧ length conditions ≤ length query).
Proof.
  split.
  - intros e. split.
    + unfold Company_filter.
      destruct (truthy (obj_get query "nameLike")),
               (truthy (obj_get query "minEmployees")) eqn:Hmin,
               (truthy (obj_get query "maxEmployees")) eqn:Hmax;
        simpl;
        try destruct (num_gt _ _) eqn:Hgt; simpl;
        try destruct (filter_loop Company_sqlMap _);
        simpl; intros [= <-]; auto 10.
    + intros [(H1 & H2 & H3 & ->) | (H1 & H2 & H3 & ->)].
      * by rewrite Company_filter_rejects_falsy.
      * by rewrite Company_filter_range_guard.
  - intros stmt Hstmt.
    destruct (Company_filter query) as [out built] eqn:Hrun. simpl in Hstmt.
    subst built. pose proof Hrun as Hinv.
    apply Company_filter_Return_inv in Hinv as [-> ->].
    eexists _, _. split_and!; [done | apply filter_loop_lengths | |].
    + assert (∃ key text, truthy (obj_get query key) = true
                          ∧ table_get Company_sqlMap key = Some text)
        as (key & text & Hkey & Htable).
      { destruct (truthy (obj_get query "nameLike")) eqn:H1; [by eauto|].
        destruct (truthy (obj_get query "minEmployees")) eqn:H2; [by eauto|].
        destruct (truthy (obj_get query "maxEmployees")) eqn:H3; [by eauto|].
        by rewrite Company_filter_rejects_falsy in Hrun. }
      destruct (wrapped_truthy query "nameLike" key Hkey) as [Hkey' Hin].
      by eapply filter_loop_not_empty.
    + etrans; [apply filter_loop_at_most_keys|].
      destruct (truthy (obj_get query "nameLike")) eqn:Hname; [|done].
      rewrite <- !length_Object_keys, Object_keys_set; [done|].
      by apply obj_get_present.
Qed.

(** X3: [Job.filter] throws in one case only, when none of [title],
    [minSalary], [hasEquity] is truthy.  A statement it builds has at least
    one condition, as many parameters as conditions, and at most one
    condition for each key of the query. *)
Theorem Job_filter_outcomes query :
  (∀ e, (Job_filter query).2 = Throw e ↔
     truthy (obj_get query "title") = false
     ∧ truthy (obj_get query "minSalary") = false
     ∧ truthy (obj_get query "hasEquity") = false
     ∧ e = BadRequestError "Invalid search criteria")
  ∧ (∀ stmt, (Job_filter query).2 = Return stmt →
       ∃ params conditions,
         stmt = {| queryText := Job_filter_queryStmt (join " AND " conditions);
                   queryParams := params |}
         ∧ length params = length conditions
         ∧ 0 < length conditions
         ∧ length conditions ≤ length query).
Proof.
  split.
  - intros e. split.
    + unfold Job_filter.
      destruct (truthy (obj_get query "title")),
               (truthy (obj_get query "minSalary")),
               (truthy (obj_get query "hasEquity"));
        simpl; try destruct (filter_loop (Job_sqlMap _) _);
        simpl; intros [= <-]; auto.
    + intros (H1 & H2 & H3 & ->). by rewrite Job_filter_rejects_falsy.
  - intros stmt Hstmt.
    destruct (Job_filter query) as [out built] eqn:Hrun. simpl in Hstmt.
    subst built. pose proof Hrun as Hinv.
    apply Job_filter_Return_inv in Hinv as [-> ->].
    set (query' := if truthy (obj_get query "title")
                   then obj_set query "title" (wildcard (obj_get query "title"))
                   else query).
    eexists _, _. split_and!; [done | apply filter_loop_lengths | |].
    + assert (∃ key text, truthy (obj_get query key) = true
                          ∧ table_get (Job_sqlMap query') key = Some text)
        as (key & text & Hkey & Htable).
      { destruct (truthy (obj_get query "title")) eqn:H1;
          [by eauto using Job_sqlMap_title|].
        destruct (truthy (obj_get query "minSalary")) eqn:H2;
          [by eauto using Job_sqlMap_minSalary|].
        destruct (truthy (obj_get query "hasEquity")) eqn:H3;
          [by eauto using Job_sqlMap_hasEquity|].
        by rewrite Job_filter_rejects_falsy in Hrun. }
      destruct (wrapped_truthy query "title" key Hkey) as [Hkey' Hin].
      by eapply filter_loop_not_empty.
    + etrans; [apply filter_loop_at_most_keys|]. unfold query'.
      destruct (truthy (obj_get query "title")) eqn:Htitle; [|done].
      rewrite <- !length_Object_keys, Object_keys_set; [done|].
      by apply obj_get_present.
Qed.

End FilterOutcomes.

(** ** Criteria the filters ignore *)

Section IgnoredCriteria.
Context {num : Type} `{!JsRuntime num}.
Implicit Types (o query : @Obj num) (sqlMap : gmap string string) (k key name : string).

Local Ltac solve_elem :=
  repeat first [apply list_elem_of_here | apply list_elem_of_further].

(** The object without the property [k]. *)
Definition obj_delete k o : Obj :=
  filter (λ kv : string * JsVal num, kv.1 ≠ k) (o : list (string * JsVal num)).

(** The assignment [query.name = `%${query.name}%`] under its guard. *)
Definition wrap_criterion name query : Obj :=
  if truthy (obj_get query name)
  then obj_set query name (wildcard (obj_get query name))
  else query.

Lemma obj_get_delete o k key :
  obj_get (obj_delete k o) key = if decide (key = k) then JUndefined else obj_get o key.
Proof.
  unfold obj_delete. induction o as [|[k0 v0] o IH].
  - by destruct (decide (key = k)).
  - rewrite filter_cons. cbn [fst obj_get].
    destruct (decide (k0 ≠ k)) as [Hne|Heq%dec_stable]; cbn [obj_get].
    + destruct (decide (k0 = key)) as [->|]; [|done].
      rewrite decide_False by done. done.
    + subst k0. rewrite IH.
      destruct (decide (key = k)) as [->|Hne]; [done|].
      rewrite decide_False by done. done.
Qed.

Lemma Object_keys_delete o k :
  Object_keys (obj_delete k o) = filter (λ key, key ≠ k) (Object_keys o).
Proof.
  unfold obj_delete, Object_keys. induction o as [|[k0 v0] o IH]; [done|].
  rewrite fmap_cons, !filter_cons. cbn [fst].
  destruct (decide (k0 ≠ k)); [|exact IH].
  rewrite fmap_cons. cbn [fst]. by f_equal.
Qed.

Lemma obj_set_delete o k key v :
  key ≠ k → obj_set (obj_delete k o) key v = obj_delete k (obj_set o key v).
Proof.
  intros Hne. unfold obj_delete. induction o as [|[k0 v0] o IH]; simpl.
  - by rewrite filter_cons, decide_True, filter_nil.
  - rewrite filter_cons. simpl.
    destruct (decide (k0 = key)) as [->|Hk0].
    + rewrite decide_True by done. simpl. rewrite decide_True by done.
      by rewrite filter_cons, decide_True.
    + rewrite (filter_cons _ (k0, v0)). simpl.
      destruct (decide (k0 ≠ k)); simpl; [|done].
      by rewrite decide_False, IH.
Qed.

Lemma obj_delete_set_eq o k v : obj_delete k (obj_set o k v) = obj_delete k o.
Proof.
  unfold obj_delete. induction o as [|[k0 v0] o IH]; cbn [obj_set].
  - rewrite filter_cons. cbn [fst]. by rewrite decide_False by (by intros ?).
  - destruct (decide (k0 = k)) as [->|Hne].
    + rewrite !filter_cons. cbn [fst]. by rewrite !decide_False by (by intros ?).
    + rewrite !filter_cons. cbn [fst]. by rewrite !decide_True, IH by done.
Qed.

(** A key the loop passes over: its value is falsy, or the table has no
    truthy entry for it. *)
Definition passed_over sqlMap query k : Prop :=
  truthy (obj_get query k) = false ∨ table_get sqlMap k = None.

Lemma selected_delete sqlMap query k keys :
  passed_over sqlMap query k →
  selected sqlMap (obj_delete k query) (filter (λ key, key ≠ k) keys)
  = selected sqlMap query keys.
Proof.
  intros Hk. unfold selected. induction keys as [|key keys IH]; [done|].
  rewrite !filter_cons. destruct (decide (key ≠ k)) as [Hne|Heq%dec_stable].
  - rewrite filter_cons, obj_get_delete.
    rewrite (decide_False (P := key = k)) by done.
    destruct (decide _); by rewrite IH.
  - subst key. rewrite IH. rewrite decide_False; [done|].
    intros [Htruthy [text Htable]]. destruct Hk; congruence.
Qed.

Lemma selected_not_deleted sqlMap query k keys key :
  passed_over sqlMap query k → key ∈ selected sqlMap query keys → key ≠ k.
Proof.
  intros Hk [[Htruthy [text Htable]] _]%list_elem_of_filter ->.
  destruct Hk; congruence.
Qed.

(** The loop does the same on a query and on the query without a key it
    passes over. *)
Lemma filter_loop_delete sqlMap query k :
  passed_over sqlMap query k →
  filter_loop sqlMap (obj_delete k query) = filter_loop sqlMap query.
Proof.
  intros Hk. rewrite !filter_loop_closed_form.
  rewrite Object_keys_delete, selected_delete by done.
  f_equal. apply list_fmap_ext. intros i key Hkey.
  rewrite obj_get_delete, decide_False; [done|].
  eapply selected_not_deleted; [done|]. by eapply list_elem_of_lookup_2.
Qed.

(** Wrapping the text criterion and removing another key, or a falsy one,
    can be done in either order. *)
Lemma wrap_criterion_delete query name k :
  (name = k → truthy (obj_get query k) = false) →
  wrap_criterion name (obj_delete k query) = obj_delete k (wrap_criterion name query).
Proof.
  intros Hname. unfold wrap_criterion. rewrite obj_get_delete.
  destruct (decide (name = k)) as [->|Hne].
  - by rewrite Hname.
  - destruct (truthy (obj_get query name)); [|done]. by apply obj_set_delete.
Qed.

Lemma wrap_criterion_truthy query name key :
  truthy (obj_get (wrap_criterion name query) key) = truthy (obj_get query key).
Proof.
  unfold wrap_criterion. destruct (truthy (obj_get query name)) eqn:Hname; [|done].
  destruct (decide (name = key)) as [->|Hne].
  - by rewrite obj_get_set_eq, Hname.
  - by rewrite obj_get_set_ne.
Qed.

Lemma wrap_loop_delete sqlMap query name k :
  passed_over sqlMap query k →
  filter_loop sqlMap (wrap_criterion name (obj_delete k query))
  = filter_loop sqlMap (wrap_criterion name query).
Proof.
  intros Hk. destruct (decide (name = k ∧ truthy (obj_get query k) = true))
    as [[-> Htruthy]|Hname].
  - (* the wrapped criterion itself is removed: the table has no entry for it *)
    destruct Hk as [Hk|Hk]; [congruence|].
    unfold wrap_criterion at 1. rewrite obj_get_delete, decide_True by done.
    cbn [truthy].
    rewrite <- (filter_loop_delete sqlMap (wrap_criterion k query) k) by (by right).
    f_equal. unfold wrap_criterion. rewrite Htruthy.
    by rewrite obj_delete_set_eq.
  - rewrite wrap_criterion_delete.
    + apply filter_loop_delete. destruct Hk as [Hk|Hk]; [left|by right].
      by rewrite wrap_criterion_truthy.
    + intros ->. destruct (truthy (obj_get query k)) eqn:Htruthy; [|done].
      by destruct Hname.
Qed.

(** The tests of a filter read the same from a query and from the query
    without a key whose value is falsy. *)
Lemma read_after_delete query k key :
  (key = k → truthy (obj_get query k) = false) →
  truthy (obj_get (obj_delete k query) key) = truthy (obj_get query key)
  ∧ (truthy (obj_get query key) = true →
     obj_get (obj_delete k query) key = obj_get query key).
Proof.
  intros Hkey. rewrite obj_get_delete. destruct (decide (key = k)) as [->|]; [|done].
  rewrite Hkey by done. split; [done | discriminate].
Qed.

(** X4: [Company.filter] treats a criterion whose value is falsy ([0], the
    empty string, [false], [null]) and a criterion whose key it does not
    recognize (and that [Object.prototype] does not define) as if it were
    absent: with and without it the call throws the same exception or builds
    the same statement with the same parameters. *)
Theorem Company_filter_ignores query k :
  truthy (obj_get query k) = false
  ∨ (k ∉ ["nameLike"; "minEmployees"; "maxEmployees"])
    ∧ (k ∉ Object_prototype_names) →
  (Company_filter (obj_delete k query)).2 = (Company_filter query).2.
Proof.
  intros Hk.
  assert (Hover : passed_over Company_sqlMap query k).
  { destruct Hk as [Hk|[Hk Hproto]]; [by left|right].
    unfold table_get, Company_sqlMap.
    rewrite !lookup_insert_ne, lookup_singleton_ne
      by (intros <-; apply Hk; solve_elem).
    by rewrite bool_decide_false. }
  assert (Hread : ∀ key, key ∈ ["nameLike"; "minEmployees"; "maxEmployees"] →
            truthy (obj_get (obj_delete k query) key) = truthy (obj_get query key)
            ∧ (truthy (obj_get query key) = true →
               obj_get (obj_delete k query) key = obj_get query key)).
  { intros key Hkey. apply read_after_delete. intros ->.
    destruct Hk as [Hk|[Hk _]]; [done | by destruct Hk]. }
  destruct (Hread "nameLike") as [Hname _]; [solve_elem|].
  destruct (Hread "minEmployees") as [Hmin Hminv]; [solve_elem|].
  destruct (Hread "maxEmployees") as [Hmax Hmaxv]; [solve_elem|].
  pose proof (wrap_loop_delete Company_sqlMap query "nameLike" k Hover) as Hloop.
  unfold wrap_criterion in Hloop. rewrite Hname in Hloop.
  unfold Company_filter. rewrite Hname, Hmin, Hmax.
  destruct (negb _ && negb _ && negb _); [done|].
  assert (truthy (obj_get query "minEmployees")
          && truthy (obj_get query "maxEmployees")
          && num_gt (ToNumber (obj_get (obj_delete k query) "minEmployees"))
                    (ToNumber (obj_get (obj_delete k query) "maxEmployees"))
          = truthy (obj_get query "minEmployees")
            && truthy (obj_get query "maxEmployees")
            && num_gt (ToNumber (obj_get query "minEmployees"))
                      (ToNumber (obj_get query "maxEmployees"))) as ->.
  { destruct (truthy (obj_get query "minEmployees")); [|done].
    destruct (truthy (obj_get query "maxEmployees")); [|done].
    by rewrite Hminv, Hmaxv. }
  destruct (_ && _ && num_gt _ _); [done|].
  cbv zeta. rewrite Hloop. clear Hloop.
  by destruct (filter_loop Company_sqlMap _).
Qed.

Lemma Job_sqlMap_truthy query1 query2 :
  truthy (obj_get query1 "hasEquity") = truthy (obj_get query2 "hasEquity") →
  Job_sqlMap query1 = Job_sqlMap query2.
Proof.
  intros Heq. unfold Job_sqlMap, Job_hasEquity_text. by rewrite Heq.
Qed.

(** X5: [Job.filter] treats a criterion whose value is falsy and a criterion
    whose key it does not recognize (and that [Object.prototype] does not
    define) as if it were absent: with and without it the call throws the
    same exception or builds the same statement with the same parameters. *)
Theorem Job_filter_ignores query k :
  truthy (obj_get query k) = false
  ∨ (k ∉ ["title"; "minSalary"; "hasEquity"])
    ∧ (k ∉ Object_prototype_names) →
  (Job_filter (obj_delete k query)).2 = (Job_filter query).2.
Proof.
  intros Hk.
  assert (Hover : ∀ q, passed_over (Job_sqlMap q) query k).
  { intros q. destruct Hk as [Hk|[Hk Hproto]]; [by left|right].
    unfold table_get, Job_sqlMap.
    rewrite !lookup_insert_ne, lookup_singleton_ne
      by (intros <-; apply Hk; solve_elem).
    by rewrite bool_decide_false. }
  assert (Hread : ∀ key, key ∈ ["title"; "minSalary"; "hasEquity"] →
            truthy (obj_get (obj_delete k query) key) = truthy (obj_get query key)).
  { intros key Hkey. apply read_after_delete. intros ->.
    destruct Hk as [Hk|[Hk _]]; [done | by destruct Hk]. }
  pose proof (Hread "title" ltac:(solve_elem)) as Htitle.
  pose proof (Hread "minSalary" ltac:(solve_elem)) as Hmin.
  pose proof (Hread "hasEquity" ltac:(solve_elem)) as Hequity.
  assert (Hmap : Job_sqlMap (wrap_criterion "title" (obj_delete k query))
                 = Job_sqlMap (wrap_criterion "title" query)).
  { apply Job_sqlMap_truthy. by rewrite !wrap_criterion_truthy. }
  pose proof (wrap_loop_delete (Job_sqlMap (wrap_criterion "title" query))
                query "title" k (Hover _)) as Hloop.
  rewrite <- Hmap in Hloop at 1. unfold wrap_criterion in Hloop.
  unfold Job_filter. rewrite Htitle, Hmin, Hequity.
  destruct (negb (truthy (obj_get query "title")) && _ && _); [done|].
  cbv zeta. rewrite Htitle in Hloop. rewrite Hloop. clear Hloop.
  by destruct (filter_loop (Job_sqlMap _) _).
Qed.

End IgnoredCriteria.

(** ** The update statements and the asynchronous methods *)

Section Updates.
Context {num : Type} `{!JsRuntime num}.
Implicit Types (data : @Obj num) (handle id v : JsVal num).

(** X6: [Company.update] refuses the empty map only.  For every other map,
    whatever its keys are, it builds the [UPDATE] with one assignment
    fragment for each key, binds the values of the map followed by the
    handle, and names the handle in [WHERE] by the placeholder of its
    position, [$N+1] for a map of N keys. *)
Theorem Company_update_statement handle data :
  (∀ e, Company_update handle data = Throw e
        ↔ data = [] ∧ e = BadRequestError "No data")
  ∧ (data ≠ [] →
     ∃ cols,
       Company_update handle data
         = Return {| queryText :=
                       Company_update_querySql
                         (join ", " cols) ("$" +:+ pretty (length data + 1));
                     queryParams := Object_values data ++ [handle] |}
       ∧ length cols = length data
       ∧ (Object_values data ++ [handle]) !! length data = Some handle
       ∧ ∀ i key v, data !! i = Some (key, v) →
           cols !! i = Some (dquote +:+ column Company_jsToSql key +:+ dquote
                             +:+ "=$" +:+ pretty (i + 1))).
Proof.
  assert (Hrun : data ≠ [] →
            Company_update handle data
            = Return {| queryText :=
                          Company_update_querySql
                            (join ", " (imap (col_fragment Company_jsToSql)
                                             (Object_keys data)))
                            ("$" +:+ pretty (length data + 1));
                        queryParams := Object_values data ++ [handle] |}).
  { intros Hne. unfold Company_update.
    rewrite sqlForPartialUpdate_Return by done. simpl.
    by rewrite length_Object_values. }
  split.
  - intros e. split.
    + destruct data as [|kv data]; [by intros [= <-]|].
      by rewrite Hrun.
    + by intros [-> ->].
  - intros Hne. eexists. split_and!; [by apply Hrun | | |].
    + by rewrite length_imap, length_Object_keys.
    + rewrite <- (length_Object_values data). by apply list_lookup_middle.
    + intros i key v Hi. by apply col_fragment_lookup with v.
Qed.

End Updates.

Section Methods.
Context {num : Type} `{!JsRuntime num} `{!Database num}.
Implicit Types (data query : @Obj num) (handle id v : JsVal num) (db : DB).

Lemma run_query_Rows (q : @DbQuery num) db db' rows :
  db_query db q = (db', Rows rows) → run_query q db = (db', Fulfilled rows).
Proof. unfold run_query. by intros ->. Qed.

(** X7: [Job.getId] never rejects with [NotFoundError] nor with any other
    exception of its own: it fulfils with the rows its query returned, the
    empty array when no job has the id, because the guard [if (!job)] tests
    an array. *)
Theorem Job_getId_returns_the_rows id db :
  (∀ e, (Job_getId id db).2 ≠ Rejected e)
  ∧ (∀ db' rows,
       db_query db {| queryText := Job_getId_sql; queryParams := [id] |}
         = (db', Rows rows) →
       Job_getId id db = (db', Fulfilled rows)).
Proof.
  unfold Job_getId, async_bind, run_query. split.
  - intros e. by destruct (db_query db _) as [db' [rows|err]].
  - by intros db' rows ->.
Qed.

(** X8: [Job.get] rejects with the [NotFoundError] of [Company.get] exactly
    when the company query returns no row, and then it does not issue the
    query for the jobs; when the company exists it fulfils with the rows of
    the jobs query, the empty array when the company has no job. *)
Theorem Job_get_checks_the_company handle db :
  let checked :=
    db_query db {| queryText := Company_get_sql; queryParams := [handle] |} in
  (∀ e, (Job_get handle db).2 = Rejected e
        ↔ checked.2 = Rows []
          ∧ e = NotFoundError ("No company: " +:+ ToString handle))
  ∧ (checked.2 = Rows [] → (Job_get handle db).1 = checked.1)
  ∧ (∀ company rest db' jobs,
       checked.2 = Rows (company :: rest) →
       db_query checked.1 {| queryText := Job_get_sql; queryParams := [handle] |}
         = (db', Rows jobs) →
       Job_get handle db = (db', Fulfilled jobs)).
Proof.
  cbv zeta. unfold Job_get, Company_get, async_bind, run_query.
  destruct (db_query db _) as [db1 [[|company rest]|err]]; simpl.
  - split_and!; [|done..]. intros e. split; [by intros [= <-] | by intros [_ ->]].
  - destruct (db_query db1 _) as [db2 [jobs|err]] eqn:Hjobs; simpl.
    + split_and!; [by split; [|intros [[=] _]] | done |].
      intros ? ? ? ? [= <- <-] Hq. cbn [fst] in Hq. by injection Hq as <- <-.
    + split_and!; [by split; [|intros [[=] _]] | done |].
      intros ? ? ? ? [= <- <-] Hq. by cbn [fst] in Hq.
  - split_and!; [by split; [|intros [[=] _]] | done..].
Qed.

(** X9: [Company.filter] leaves the database alone when it throws, and
    otherwise fulfils with the rows its statement returned, the empty array
    when no company matches; it never rejects with [NotFoundError], because
    the guard [if (!companies)] tests an array. *)
Theorem Company_filter_run_settles query db :
  (∀ e, (Company_filter query).2 = Throw e →
        (Company_filter_run query).2 db = (db, Rejected e))
  ∧ (∀ stmt db' rows,
       (Company_filter query).2 = Return stmt →
       db_query db stmt = (db', Rows rows) →
       (Company_filter_run query).2 db = (db', Fulfilled rows))
  ∧ (∀ message,
       ((Company_filter_run query).2 db).2 ≠ Rejected (NotFoundError message))
  ∧ (Company_filter_run query).1 = (Company_filter query).1.
Proof.
  unfold Company_filter_run. cbn [fst snd]. split_and!; [| | |done].
  - by intros e ->.
  - intros stmt db' rows -> Hrows. unfold async_bind. cbn [completed resolve].
    by rewrite (run_query_Rows _ _ _ _ Hrows).
  - intros message. unfold async_bind, run_query.
    destruct (Company_filter query).2 as [stmt|e] eqn:Hbuilt; simpl.
    + by destruct (db_query db stmt) as [db' [rows|err]].
    + intros [= ->]. apply (proj1 (Company_filter_outcomes query)) in Hbuilt.
      by destruct Hbuilt as [(_ & _ & _ & [=]) | (_ & _ & _ & [=])].
Qed.

(** X10: the handler of [GET /jobs] lists all jobs only for an empty query
    object.  A query object whose keys include none of [title], [minSalary],
    [hasEquity] with a truthy value ends in [next] with the
    [BadRequestError] of [Job.filter], without a query to the database;
    every other query object runs the statement of [Job.filter] and answers
    with its rows, the empty array included. *)
Theorem jobs_router_get_dispatch req_query db :
  (req_query = [] →
   jobs_router_get req_query = (req_query, Job_findAll)
   ∧ ∀ db' rows,
       db_query db {| queryText := Job_findAll_sql; queryParams := [] |}
         = (db', Rows rows) →
       (jobs_router_get req_query).2 db = (db', Fulfilled rows))
  ∧ (req_query ≠ [] →
     truthy (obj_get req_query "title") = false →
     truthy (obj_get req_query "minSalary") = false →
     truthy (obj_get req_query "hasEquity") = false →
     jobs_router_get req_query
       = (req_query, throw (BadRequestError "Invalid search criteria"))
     ∧ (jobs_router_get req_query).2 db
       = (db, Rejected (BadRequestError "Invalid search criteria")))
  ∧ (∀ stmt db' rows,
       (Job_filter req_query).2 = Return stmt →
       db_query db stmt = (db', Rows rows) →
       (jobs_router_get req_query).2 db = (db', Fulfilled rows)).
Proof.
  split_and!.
  - intros ->. split; [done|]. intros db' rows Hrows.
    unfold jobs_router_get. cbn [Object_keys fmap list_fmap length bool_decide].
    simpl. unfold Job_findAll, async_bind.
    by rewrite (run_query_Rows _ _ _ _ Hrows).
  - intros Hne H1 H2 H3. unfold jobs_router_get.
    rewrite bool_decide_false
      by (rewrite length_Object_keys; by destruct req_query).
    unfold Job_filter_run. rewrite Job_filter_rejects_falsy by done. done.
  - intros stmt db' rows Hstmt Hrows. unfold jobs_router_get.
    destruct req_query as [|kv req_query]; [done|].
    rewrite bool_decide_false by (by rewrite length_Object_keys).
    unfold Job_filter_run. cbn [snd]. rewrite Hstmt.
    unfold async_bind. cbn [completed resolve].
    by rewrite (run_query_Rows _ _ _ _ Hrows).
Qed.

(** X11: [Job.update] touches the database only with a statement it built.
    Data with a truthy [id] or [companyHandle], and empty data, are rejected
    with the database as it was; otherwise the statement runs and the
    method fulfils with the first returned row, or rejects with
    [NotFoundError] when no row comes back. *)
Theorem Job_update_run_settles id data db :
  (∀ e, Job_update id data = Throw e →
        Job_update_run id data db = (db, Rejected e))
  ∧ (truthy (obj_get data "id") || truthy (obj_get data "companyHandle") = true →
     Job_update_run id data db = (db, Rejected Job_immutable_error))
  ∧ (truthy (obj_get data "id") || truthy (obj_get data "companyHandle") = false →
     data = [] →
     Job_update_run id data db = (db, Rejected (BadRequestError "No data")))
  ∧ (∀ stmt db' rows,
       Job_update id data = Return stmt →
       db_query db stmt = (db', Rows rows) →
       Job_update_run id data db
       = (db', match head rows with
               | Some job => Fulfilled job
               | None => Rejected (NotFoundError
                                     ("No job with id:" +:+ ToString id))
               end)).
Proof.
  unfold Job_update_run, async_bind. split_and!.
  - by intros e ->.
  - intros Hguard. by rewrite Job_update_guarded.
  - intros Hguard ->. unfold Job_update. by rewrite Hguard.
  - intros stmt db' rows -> Hrows. cbn [completed resolve].
    rewrite (run_query_Rows _ _ _ _ Hrows). by destruct rows.
Qed.

(** X12: [Company.update] touches the database only with a statement it
    built.  Empty data is rejected with the database as it was; otherwise
    the statement runs and the method fulfils with the first returned row,
    or rejects with [NotFoundError] naming the handle when no row comes
    back. *)
Theorem Company_update_run_settles handle data db :
  (data = [] →
   Company_update_run handle data db = (db, Rejected (BadRequestError "No data")))
  ∧ (∀ stmt db' rows,
       Company_update handle data = Return stmt →
       db_query db stmt = (db', Rows rows) →
       Company_update_run handle data db
       = (db', match head rows with
               | Some company => Fulfilled company
               | None => Rejected (NotFoundError
                                     ("No company: " +:+ ToString handle))
               end)).
Proof.
  unfold Company_update_run, async_bind. split.
  - by intros ->.
  - intros stmt db' rows -> Hrows. cbn [completed resolve].
    rewrite (run_query_Rows _ _ _ _ Hrows). by destruct rows.
Qed.

(** X13: [Company.create] inserts only after its duplicate check came back
    without a row.  When the check returns a row the method rejects with
    [BadRequestError] naming the handle and issues no [INSERT]; otherwise it
    runs the [INSERT] with the five fields in column order and fulfils with
    the first returned row. *)
Theorem Company_create_checks_duplicates data db :
  let handle := obj_get data "handle" in
  let check := {| queryText := Company_create_duplicateCheck_sql;
                  queryParams := [handle] |} in
  let insert := {| queryText := Company_create_insert_sql;
                   queryParams := [handle; obj_get data "name";
                                   obj_get data "description";
                                   obj_get data "numEmployees";
                                   obj_get data "logoUrl"] |} in
  (∀ db' row rest,
     db_query db check = (db', Rows (row :: rest)) →
     Company_create data db
     = (db', Rejected (BadRequestError
                         ("Duplicate company: " +:+ ToString handle))))
  ∧ (∀ db' db'' rows,
       db_query db check = (db', Rows []) →
       db_query db' insert = (db'', Rows rows) →
       Company_create data db = (db'', Fulfilled (head rows)))
  ∧ (∀ e, (Company_create data db).2 = Rejected e →
          e = BadRequestError ("Duplicate company: " +:+ ToString handle)
          ∧ (Company_create data db).1 = (db_query db check).1).
Proof.
  cbv zeta. unfold Company_create, async_bind, run_query. split_and!.
  - by intros db' row rest ->.
  - intros db' db'' rows -> Hinsert. simpl. by rewrite Hinsert.
  - intros e. destruct (db_query db _) as [db' [[|row rest]|err]]; simpl; [|by intros [= <-]|done].
    by destruct (db_query db' _) as [db'' [rows|err]].
Qed.

(** X14: the duplicate check of [Job.create] reads [companyHandle], [title]
    and [salary] and not [equity]: two postings that agree on these three
    fields are rejected as duplicates together, with the same message,
    whatever their [equity] is. *)
Theorem Job_create_duplicates_ignore_equity data1 data2 db :
  obj_get data1 "companyHandle" = obj_get data2 "companyHandle" →
  obj_get data1 "title" = obj_get data2 "title" →
  obj_get data1 "salary" = obj_get data2 "salary" →
  ∀ e, (Job_create data1 db).2 = Rejected e
       ↔ (Job_create data2 db).2 = Rejected e.
Proof.
  intros Hhandle Htitle Hsalary e.
  unfold Job_create, async_bind, run_query. rewrite Hhandle, Htitle, Hsalary.
  destruct (db_query db _) as [db' [[|row rest]|err]]; simpl; [|done..].
  split; intros Hrej; exfalso; revert Hrej.
  - by destruct (db_query db' _) as [db'' [rows|err]].
  - by destruct (db_query db' _) as [db'' [rows|err]].
Qed.

End Methods.

(** ** What the filters bind *)

Section FilterBindings.
Context {num : Type} `{!JsRuntime num}.
Implicit Types (query : @Obj num) (k key : string).

(** X15: a truthy [minEmployees] or [maxEmployees] that passes the range
    check is bound as the caller gave it (the range check compares numbers,
    the parameter is not converted), at the position named by the condition
    [num_employees >= $position], respectively [num_employees <= $position]. *)
Theorem Company_filter_binds_bounds_unchanged query key :
  key = "minEmployees" ∨ key = "maxEmployees" →
  truthy (obj_get query key) = true →
  truthy (obj_get query "minEmployees")
    && truthy (obj_get query "maxEmployees")
    && num_gt (ToNumber (obj_get query "minEmployees"))
              (ToNumber (obj_get query "maxEmployees")) = false →
  ∃ params conditions i,
    (Company_filter query).2
      = Return {| queryText := Company_filter_queryStmt (join " AND " conditions);
                  queryParams := params |}
    ∧ params !! i = Some (obj_get query key)
    ∧ conditions !! i
      = Some ((if bool_decide (key = "minEmployees")
               then "num_employees >=" else "num_employees <=")
              +:+ " $" +:+ pretty (i + 1)).
Proof.
  intros Hkey Htruthy Hrange.
  rewrite Company_filter_accepts; [|by destruct Hkey as [-> | ->];
    rewrite Htruthy, ?orb_true_r | done].
  cbv zeta. cbn [snd].
  destruct (wrapped_truthy query "nameLike" key Htruthy) as [Htruthy' Hin].
  assert (Hsame : obj_get (if truthy (obj_get query "nameLike")
                           then obj_set query "nameLike"
                                  (wildcard (obj_get query "nameLike"))
                           else query) key = obj_get query key).
  { destruct (truthy (obj_get query "nameLike")); [|done].
    apply obj_get_set_ne. by destruct Hkey as [-> | ->]. }
  destruct (filter_loop_binds Company_sqlMap _ key
              (if bool_decide (key = "minEmployees")
               then "num_employees >=" else "num_employees <=") Hin Htruthy')
    as (i & Hparam & Hcond).
  { by destruct Hkey as [-> | ->]. }
  rewrite Hsame in Hparam. by eexists _, _, i.
Qed.

(** X16: [Job.filter] binds a truthy [title] as the wrapped pattern
    [%title%] at the position named by the condition [title ILIKE $position]
    and leaves the wrapped pattern in the caller's object; it binds a truthy
    [minSalary] as the caller gave it at the position named by
    [salary >= $position]. *)
Theorem Job_filter_binds_title_and_minSalary query :
  (truthy (obj_get query "title") = true →
   ∃ params conditions i,
     Job_filter query
       = (obj_set query "title" (wildcard (obj_get query "title")),
          Return {| queryText := Job_filter_queryStmt (join " AND " conditions);
                    queryParams := params |})
     ∧ params !! i = Some (wildcard (obj_get query "title"))
     ∧ conditions !! i = Some ("title ILIKE $" +:+ pretty (i + 1)))
  ∧ (truthy (obj_get query "minSalary") = true →
     ∃ params conditions i,
       (Job_filter query).2
         = Return {| queryText := Job_filter_queryStmt (join " AND " conditions);
                     queryParams := params |}
       ∧ params !! i = Some (obj_get query "minSalary")
       ∧ conditions !! i = Some ("salary >= $" +:+ pretty (i + 1))).
Proof.
  split; intros Htruthy.
  - rewrite Job_filter_accepts by (by rewrite Htruthy).
    cbv zeta. rewrite Htruthy.
    set (query' := obj_set query "title" (wildcard (obj_get query "title"))).
    destruct (filter_loop_binds (Job_sqlMap query') query' "title" "title ILIKE")
      as (i & Hparam & Hcond).
    + unfold query'. rewrite Object_keys_set; by apply obj_get_present.
    + unfold query'. by rewrite obj_get_set_eq.
    + apply Job_sqlMap_title.
    + subst query'. rewrite obj_get_set_eq in Hparam. by eexists _, _, i.
  - rewrite Job_filter_accepts by (by rewrite Htruthy, orb_true_r).
    cbv zeta. cbn [snd].
    destruct (wrapped_truthy query "title" "minSalary" Htruthy) as [Htruthy' Hin].
    assert (Hsame : obj_get (if truthy (obj_get query "title")
                             then obj_set query "title"
                                    (wildcard (obj_get query "title"))
                             else query) "minSalary"
                    = obj_get query "minSalary").
    { destruct (truthy (obj_get query "title")); [|done].
      by apply obj_get_set_ne. }
    set (query' := if truthy (obj_get query "title")
                   then obj_set query "title" (wildcard (obj_get query "title"))
                   else query) in *.
    destruct (filter_loop_binds (Job_sqlMap query') query' "minSalary" "salary >="
                Hin Htruthy' (Job_sqlMap_minSalary query'))
      as (i & Hparam & Hcond).
    rewrite Hsame in Hparam. by eexists _, _, i.
Qed.

(** X17: the filters are not idempotent on the caller's object.  After one
    call of [Company.filter] with a truthy [nameLike] the object holds the
    wrapped pattern; a second call with the same object wraps it again and
    leaves, and binds, [%%value%%]. *)
Theorem Company_filter_twice_wraps_twice query s :
  obj_get query "nameLike" = s →
  truthy s = true →
  truthy (obj_get query "minEmployees")
    && truthy (obj_get query "maxEmployees")
    && num_gt (ToNumber (obj_get query "minEmployees"))
              (ToNumber (obj_get query "maxEmployees")) = false →
  let once := (Company_filter query).1 in
  let twice := (Company_filter once).1 in
  obj_get once "nameLike" = wildcard s
  ∧ obj_get twice "nameLike" = wildcard (wildcard s)
  ∧ wildcard (wildcard s) ≠ wildcard s
  ∧ ∃ params conditions i,
      (Company_filter once).2
        = Return {| queryText := Company_filter_queryStmt (join " AND " conditions);
                    queryParams := params |}
      ∧ params !! i = Some (wildcard (wildcard s))
      ∧ conditions !! i = Some ("name ILIKE $" +:+ pretty (i + 1)).
Proof.
  intros Hs Htruthy Hrange. cbv zeta.
  assert (Honce : (Company_filter query).1 = obj_set query "nameLike" (wildcard s)).
  { rewrite Company_filter_accepts by (by rewrite ?Hs, ?Htruthy).
    cbv zeta. by rewrite Hs, Htruthy. }
  rewrite Honce. set (once := obj_set query "nameLike" (wildcard s)).
  assert (Hname : obj_get once "nameLike" = wildcard s)
    by apply obj_get_set_eq.
  assert (Hrange' : truthy (obj_get once "minEmployees")
                    && truthy (obj_get once "maxEmployees")
                    && num_gt (ToNumber (obj_get once "minEmployees"))
                              (ToNumber (obj_get once "maxEmployees")) = false).
  { unfold once. by rewrite !obj_get_set_ne. }
  assert (Hrun : Company_filter once
            = (obj_set once "nameLike" (wildcard (wildcard s)),
               Return {| queryText :=
                           Company_filter_queryStmt
                             (join " AND "
                                (filter_loop Company_sqlMap
                                   (obj_set once "nameLike" (wildcard (wildcard s)))).2);
                         queryParams :=
                           (filter_loop Company_sqlMap
                              (obj_set once "nameLike" (wildcard (wildcard s)))).1 |})).
  { rewrite Company_filter_accepts by (by rewrite ?Hname). cbv zeta.
    by rewrite Hname. }
  rewrite Hrun. cbn [fst snd].
  split_and!; [done | apply obj_get_set_eq | apply wildcard_neq |].
  destruct (filter_loop_binds Company_sqlMap
              (obj_set once "nameLike" (wildcard (wildcard s)))
              "nameLike" "name ILIKE")
    as (i & Hparam & Hcond).
  - rewrite Object_keys_set; apply obj_get_present; by rewrite Hname.
  - by rewrite obj_get_set_eq.
  - done.
  - rewrite obj_get_set_eq in Hparam. by eexists _, _, i.
Qed.

End FilterBindings.

(** ** The further properties at concrete inputs *)

Local Ltac solve_not_elem :=
  unfold Object_prototype_names; rewrite ?not_elem_of_cons;
  repeat split; try discriminate; apply not_elem_of_nil.

(** A database whose next queries get the given results. *)
Definition scripted (results : list (list (@Obj Zdouble)))
  : @DB Zdouble Scripted_database :=
  {| pending := results; issued := [] |}.

Definition row_c1 : @Obj Zdouble := [("handle", JStr "c1"); ("name", JStr "C1")].
Definition row_job1 : @Obj Zdouble := [("id", jnum 1); ("title", JStr "job1")].

Lemma Company_filter_outcomes_witness :
  ∃ params conditions,
    {| queryText := Company_filter_queryStmt "name ILIKE $1";
       queryParams := [@JStr Zdouble "%tech%"] |}
    = {| queryText := Company_filter_queryStmt (join " AND " conditions);
         queryParams := params |}
    ∧ length params = length conditions
    ∧ 0 < length conditions
    ∧ length conditions ≤ length criteria_tech.
Proof.
  apply (proj2 (Company_filter_outcomes criteria_tech)). reflexivity.
Defined.

Lemma Job_filter_outcomes_witness :
  ∃ params conditions,
    {| queryText := Job_filter_queryStmt "title ILIKE $1";
       queryParams := [@JStr Zdouble "%engineer%"] |}
    = {| queryText := Job_filter_queryStmt (join " AND " conditions);
         queryParams := params |}
    ∧ length params = length conditions
    ∧ 0 < length conditions
    ∧ length conditions ≤ length criteria_title.
Proof.
  apply (proj2 (Job_filter_outcomes criteria_title)). reflexivity.
Defined.

(** Criteria with a key the filters do not know. *)
Definition criteria_tech_page : @Obj Zdouble :=
  [("page", JStr "2"); ("nameLike", JStr "tech")].
Definition criteria_title_page : @Obj Zdouble :=
  [("page", JStr "2"); ("title", JStr "engineer"); ("hasEquity", JBool false)].

Lemma Company_filter_ignores_witness :
  (Company_filter (obj_delete "page" criteria_tech_page)).2
    = (Company_filter criteria_tech_page).2
  ∧ (Company_filter (obj_delete "maxEmployees" criteria_min_10_max_0)).2
    = (Company_filter criteria_min_10_max_0).2.
Proof.
  split.
  - apply (Company_filter_ignores criteria_tech_page "page").
    right. split; solve_not_elem.
  - apply (Company_filter_ignores criteria_min_10_max_0 "maxEmployees").
    left. reflexivity.
Defined.

Lemma Job_filter_ignores_witness :
  (Job_filter (obj_delete "page" criteria_title_page)).2
    = (Job_filter criteria_title_page).2
  ∧ (Job_filter (obj_delete "hasEquity" criteria_title_page)).2
    = (Job_filter criteria_title_page).2.
Proof.
  split.
  - apply (Job_filter_ignores criteria_title_page "page").
    right. split; solve_not_elem.
  - apply (Job_filter_ignores criteria_title_page "hasEquity").
    left. reflexivity.
Defined.

(** An update of the key column itself. *)
Definition update_handle : @Obj Zdouble :=
  [("handle", JStr "c9"); ("numEmployees", jnum 5)].

Lemma Company_update_statement_witness :
  update_handle ≠ []
  ∧ ∃ cols,
      Company_update (JStr "c1") update_handle
        = Return {| queryText :=
                      Company_update_querySql
                        (join ", " cols) ("$" +:+ pretty (length update_handle + 1));
                    queryParams := Object_values update_handle ++ [JStr "c1"] |}
      ∧ length cols = length update_handle
      ∧ (Object_values update_handle ++ [JStr "c1"]) !! length update_handle
        = Some (JStr "c1")
      ∧ ∀ i key v, update_handle !! i = Some (key, v) →
          cols !! i = Some (dquote +:+ column Company_jsToSql key +:+ dquote
                            +:+ "=$" +:+ pretty (i + 1)).
Proof.
  split; [discriminate|].
  apply (proj2 (Company_update_statement (JStr "c1") update_handle)).
  discriminate.
Defined.

Lemma Job_getId_returns_the_rows_witness :
  Job_getId (jnum 0) (scripted [[]])
  = ({| pending := [];
        issued := [{| queryText := Job_getId_sql; queryParams := [jnum 0] |}] |},
     Fulfilled []).
Proof.
  apply (proj2 (Job_getId_returns_the_rows (jnum 0) (scripted [[]]))).
  reflexivity.
Defined.

Lemma Job_get_checks_the_company_witness :
  (Job_get (JStr "nope") (scripted [[]])).2
    = Rejected (NotFoundError "No company: nope")
  ∧ issued (Job_get (JStr "nope") (scripted [[]])).1
    = [{| queryText := Company_get_sql; queryParams := [JStr "nope"] |}]
  ∧ (Job_get (JStr "c1") (scripted [[row_c1]; []])).2 = Fulfilled [].
Proof.
  destruct (Job_get_checks_the_company (JStr "nope") (scripted [[]]))
    as (Hreject & Hstate & _).
  destruct (Job_get_checks_the_company (JStr "c1") (scripted [[row_c1]; []]))
    as (_ & _ & Hjobs).
  split_and!.
  - apply Hreject. split; reflexivity.
  - rewrite Hstate; reflexivity.
  - erewrite Hjobs by reflexivity; reflexivity.
Defined.

Lemma Company_filter_run_settles_witness :
  (Company_filter_run criteria_min_10_max_5).2 (scripted [[row_c1]])
    = (scripted [[row_c1]],
       Rejected (BadRequestError
                   "Invalid request, minEmployees can not exceed maxEmployees"))
  ∧ ((Company_filter_run criteria_tech).2 (scripted [[]])).2 = Fulfilled [].
Proof.
  split.
  - apply (Company_filter_run_settles criteria_min_10_max_5 (scripted [[row_c1]])).
    reflexivity.
  - destruct (Company_filter_run_settles criteria_tech (scripted [[]]))
      as (_ & Hrows & _).
    erewrite Hrows by reflexivity; reflexivity.
Defined.

Lemma jobs_router_get_dispatch_witness :
  (jobs_router_get [] ).2 (scripted [[row_job1]])
    = ({| pending := [];
          issued := [{| queryText := Job_findAll_sql; queryParams := [] |}] |},
       Fulfilled [row_job1])
  ∧ (jobs_router_get criteria_unrecognized).2 (scripted [[row_job1]])
    = (scripted [[row_job1]],
       Rejected (BadRequestError "Invalid search criteria"))
  ∧ ((jobs_router_get criteria_title).2 (scripted [[]])).2 = Fulfilled [].
Proof.
  split_and!.
  - apply (jobs_router_get_dispatch [] (scripted [[row_job1]])); reflexivity.
  - apply (jobs_router_get_dispatch criteria_unrecognized (scripted [[row_job1]]));
      [discriminate | reflexivity..].
  - destruct (jobs_router_get_dispatch criteria_title (scripted [[]]))
      as (_ & _ & Hrows).
    erewrite Hrows by reflexivity; reflexivity.
Defined.

(** Update data a job accepts. *)
Definition update_title : @Obj Zdouble := [("title", JStr "t")].
Definition update_with_id : @Obj Zdouble := [("id", jnum 100); ("title", JStr "t")].

Lemma Job_update_run_settles_witness :
  Job_update_run (jnum 7) update_with_id (scripted [[row_job1]])
    = (scripted [[row_job1]], Rejected Job_immutable_error)
  ∧ Job_update_run (jnum 7) [] (scripted [[row_job1]])
    = (scripted [[row_job1]], Rejected (BadRequestError "No data"))
  ∧ (Job_update_run (jnum 7) update_title (scripted [[row_job1]])).2
    = Fulfilled row_job1
  ∧ (Job_update_run (jnum 7) update_title (scripted [[]])).2
    = Rejected (NotFoundError "No job with id:7").
Proof.
  split_and!.
  - apply (Job_update_run_settles (jnum 7) update_with_id (scripted [[row_job1]])).
    reflexivity.
  - apply (Job_update_run_settles (jnum 7) [] (scripted [[row_job1]]));
      reflexivity.
  - destruct (Job_update_run_settles (jnum 7) update_title (scripted [[row_job1]]))
      as (_ & _ & _ & Hrows).
    erewrite Hrows by reflexivity; reflexivity.
  - destruct (Job_update_run_settles (jnum 7) update_title (scripted [[]]))
      as (_ & _ & _ & Hrows).
    erewrite Hrows by reflexivity; reflexivity.
Defined.

Lemma Company_update_run_settles_witness :
  Company_update_run (JStr "c1") [] (scripted [[row_c1]])
    = (scripted [[row_c1]], Rejected (BadRequestError "No data"))
  ∧ (Company_update_run (JStr "c1") update_acme (scripted [[row_c1]])).2
    = Fulfilled row_c1
  ∧ (Company_update_run (JStr "nope") update_acme (scripted [[]])).2
    = Rejected (NotFoundError "No company: nope").
Proof.
  split_and!.
  - apply (Company_update_run_settles (JStr "c1") [] (scripted [[row_c1]])).
    reflexivity.
  - destruct (Company_update_run_settles (JStr "c1") update_acme (scripted [[row_c1]]))
      as (_ & Hrows).
    erewrite Hrows by reflexivity; reflexivity.
  - destruct (Company_update_run_settles (JStr "nope") update_acme (scripted [[]]))
      as (_ & Hrows).
    erewrite Hrows by reflexivity; reflexivity.
Defined.

Lemma Company_create_checks_duplicates_witness :
  Company_create row_c1 (scripted [[row_c1]; [row_c1]])
    = ({| pending := [[row_c1]];
          issued := [{| queryText := Company_create_duplicateCheck_sql;
                        queryParams := [JStr "c1"] |}] |},
       Rejected (BadRequestError "Duplicate company: c1"))
  ∧ (Company_create row_c1 (scripted [[]; [row_c1]])).2 = Fulfilled (Some row_c1).
Proof.
  destruct (Company_create_checks_duplicates row_c1 (scripted [[row_c1]; [row_c1]]))
    as (Hdup & _ & _).
  destruct (Company_create_checks_duplicates row_c1 (scripted [[]; [row_c1]]))
    as (_ & Hnew & _).
  split.
  - erewrite Hdup by reflexivity; reflexivity.
  - erewrite Hnew by reflexivity; reflexivity.
Defined.

(** Two postings that differ in [equity] only. *)
Definition job_equity_0 : @Obj Zdouble :=
  [("title", JStr "dev"); ("salary", jnum 100); ("equity", JStr "0");
   ("companyHandle", JStr "c1")].
Definition job_equity_1 : @Obj Zdouble :=
  [("title", JStr "dev"); ("salary", jnum 100); ("equity", JStr "1");
   ("companyHandle", JStr "c1")].

Lemma Job_create_duplicates_ignore_equity_witness :
  (Job_create job_equity_1 (scripted [[job_equity_0]])).2
  = Rejected (BadRequestError "Duplicate job: dev at c1").
Proof.
  apply (Job_create_duplicates_ignore_equity job_equity_0 job_equity_1
           (scripted [[job_equity_0]]) eq_refl eq_refl eq_refl).
  reflexivity.
Defined.

(** Bounds as a query string carries them. *)
Definition criteria_min_5_max_10_strings : @Obj Zdouble :=
  [("minEmployees", JStr "5"); ("maxEmployees", JStr "10")].

Lemma Company_filter_binds_bounds_unchanged_witness :
  ∃ params conditions i,
    (Company_filter criteria_min_5_max_10_strings).2
      = Return {| queryText := Company_filter_queryStmt (join " AND " conditions);
                  queryParams := params |}
    ∧ params !! i = Some (JStr "10")
    ∧ conditions !! i = Some ("num_employees <=" +:+ " $" +:+ pretty (i + 1)).
Proof.
  apply (Company_filter_binds_bounds_unchanged
           criteria_min_5_max_10_strings "maxEmployees");
    [by right | reflexivity | reflexivity].
Defined.

Definition criteria_title_minSalary : @Obj Zdouble :=
  [("minSalary", JStr "30000"); ("title", JStr "job")].

Lemma Job_filter_binds_title_and_minSalary_witness :
  (∃ params conditions i,
     Job_filter criteria_title_minSalary
       = (obj_set criteria_title_minSalary "title" (wildcard (JStr "job")),
          Return {| queryText := Job_filter_queryStmt (join " AND " conditions);
                    queryParams := params |})
     ∧ params !! i = Some (wildcard (JStr "job"))
     ∧ conditions !! i = Some ("title ILIKE $" +:+ pretty (i + 1)))
  ∧ (∃ params conditions i,
       (Job_filter criteria_title_minSalary).2
         = Return {| queryText := Job_filter_queryStmt (join " AND " conditions);
                     queryParams := params |}
       ∧ params !! i = Some (JStr "30000")
       ∧ conditions !! i = Some ("salary >= $" +:+ pretty (i + 1))).
Proof.
  destruct (Job_filter_binds_title_and_minSalary criteria_title_minSalary)
    as [Htitle Hsalary].
  split; [apply Htitle | apply Hsalary]; reflexivity.
Defined.

Lemma Company_filter_twice_wraps_twice_witness :
  obj_get (Company_filter criteria_tech).1 "nameLike" = JStr "%tech%"
  ∧ obj_get (Company_filter (Company_filter criteria_tech).1).1 "nameLike"
    = JStr "%%tech%%".
Proof.
  destruct (Company_filter_twice_wraps_twice criteria_tech (JStr "tech")
              eq_refl eq_refl eq_refl) as (Honce & Htwice & _).
  split; [exact Honce | exact Htwice].
Defined.
